(** * Document-extraction notebooks: a shallow embedding and its properties

    The development follows the four notebooks of the workshop:
    - [00_prerequisites.ipynb]: a first streamed model invocation;
    - [01_process_pdf.ipynb]: S3 listing, the Textractor loop, PDF pages to
      base64 JPEG strings, the multimodal request and the streamed answer;
    - [02_extract_attributes.ipynb]: the text request, the streamed answer and
      the cell that is meant to turn the answer into JSON;
    - [03_bedrock_data_automation.ipynb]: the data-automation job and the
      parsing of the S3 URIs it reports.

    Python values are modelled as the code uses them: [str] as a list of code
    points, [bytes] as a list of bytes, dictionaries read from JSON as
    association lists in insertion order, exceptions as a result type.  The
    cloud services, the PDF renderer, the JPEG encoder and [json.loads] are
    collaborators of the notebooks, not part of them; they enter as
    parameters of the definitions that call them. *)

From Stdlib Require Import ZArith NArith List Bool Lia DecimalString.
From Stdlib.Strings Require Import String Ascii Byte.
From stdpp Require Import base option list gmap strings.

Set Default Proof Using "Type".

(* ===================================================================== *)
(** * Part I: the model                                                   *)
(* ===================================================================== *)

(** ** Python [str] *)

(** A Python string is a sequence of Unicode code points. *)
Abbreviation pystr := (list N).

(** The code points of a literal of the source (all literals are ASCII). *)
Definition lit (s : string) : pystr := N_of_ascii <$> list_ascii_of_string s.

(** [s.startswith(prefix)] and [s.endswith(suffix)]. *)
Definition startswith (s prefix : pystr) : bool :=
  bool_decide (take (length prefix) s = prefix).

Definition endswith (s suffix : pystr) : bool :=
  bool_decide (drop (length s - length suffix) s = suffix).

(** [s.removeprefix(prefix)]: CPython returns [s[len(prefix):]] when [s]
    starts with the prefix and a copy of [s] otherwise. *)
Definition removeprefix (s prefix : pystr) : pystr :=
  if startswith s prefix then drop (length prefix) s else s.

(** [s.removesuffix(suffix)]: CPython returns [s[:-len(suffix)]] when the
    suffix is not empty and [s] ends with it, and a copy of [s] otherwise. *)
Definition removesuffix (s suffix : pystr) : pystr :=
  if bool_decide (suffix ≠ []) && endswith s suffix
  then take (length s - length suffix) s
  else s.

(** The first occurrence of [sep] in [s], scanning from the left: the text
    before it and the text after it. *)
Fixpoint split_at_first (sep s : pystr) : option (pystr * pystr) :=
  if startswith s sep then Some ([], drop (length sep) s)
  else match s with
       | [] => None
       | c :: s' =>
           match split_at_first sep s' with
           | Some (before, after) => Some (c :: before, after)
           | None => None
           end
       end.

(** The pieces of [s.split(sep, maxsplit)] for a non-empty separator. *)
Fixpoint split_pieces (sep : pystr) (maxsplit : nat) (s : pystr) : list pystr :=
  match maxsplit with
  | 0 => [s]
  | S m =>
      match split_at_first sep s with
      | Some (before, after) => before :: split_pieces sep m after
      | None => [s]
      end
  end.

(** ** Exceptions *)

Inductive exn : Type :=
  | ClientError (code message : pystr)   (* botocore.exceptions.ClientError *)
  | KeyError (key : pystr)
  | IndexError
  | NameError (name : string)
  | AttributeError (type_name attribute : string)
  | TypeError
  | ValueError
  | UnicodeDecodeError
  | JSONDecodeError
  | FileNotFoundError (path : pystr).

Inductive pyresult (A : Type) : Type :=
  | Ok (a : A)
  | Raise (e : exn).
Arguments Ok {A} a.
Arguments Raise {A} e.

Definition bind {A B} (m : pyresult A) (k : A → pyresult B) : pyresult B :=
  match m with
  | Ok a => k a
  | Raise e => Raise e
  end.

Declare Scope py_scope.
Delimit Scope py_scope with py.
Notation "'do' x <- m ; k" := (bind m (fun x => k))
  (at level 10, x name, m at level 100, k at level 200) : py_scope.
Open Scope py_scope.

(** [s.split(sep, maxsplit)]; an empty separator is a [ValueError]. *)
Definition split (s sep : pystr) (maxsplit : nat) : pyresult (list pystr) :=
  match sep with
  | [] => Raise ValueError
  | _ => Ok (split_pieces sep maxsplit s)
  end.

(** [l[i]] on a list. *)
Definition getitem {A} (l : list A) (i : nat) : pyresult A :=
  match l !! i with
  | Some x => Ok x
  | None => Raise IndexError
  end.

(** [sub in s] on strings, and [sep.join(parts)]. *)
Definition contains (s sub : pystr) : bool :=
  match split_at_first sub s with
  | Some _ => true
  | None => false
  end.

Fixpoint join (sep : pystr) (parts : list pystr) : pystr :=
  match parts with
  | [] => []
  | [part] => part
  | part :: rest => part ++ sep ++ join sep rest
  end.

(** [os.path.join(a, b)] on a POSIX system. *)
Definition os_path_join (a b : pystr) : pystr :=
  if startswith b [47%N] then b
  else if bool_decide (a = []) || endswith a [47%N] then a ++ b
  else a ++ [47%N] ++ b.

(** ** JSON values, as [json.loads] builds them and [json.dumps] reads them *)

(** A dictionary keeps its members in insertion order.  A float is carried
    by its [repr], the text [json.dumps] emits for it. *)
#[warnings="-register-all"]
Inductive json : Type :=
  | JNull
  | JBool (b : bool)
  | JInt (z : Z)
  | JFloat (repr : pystr)
  | JStr (s : pystr)
  | JArr (items : list json)
  | JObj (members : list (pystr * json)).

(** Truth value of an object in an [if]. *)
Definition truthy (j : json) : bool :=
  match j with
  | JNull => false
  | JBool b => b
  | JInt z => negb (z =? 0)%Z
  | JFloat r => negb (bool_decide (r = lit "0.0") || bool_decide (r = lit "-0.0"))
  | JStr s => negb (bool_decide (s = []))
  | JArr items => match items with [] => false | _ => true end
  | JObj members => match members with [] => false | _ => true end
  end.

Definition type_name (j : json) : string :=
  match j with
  | JNull => "NoneType"
  | JBool _ => "bool"
  | JInt _ => "int"
  | JFloat _ => "float"
  | JStr _ => "str"
  | JArr _ => "list"
  | JObj _ => "dict"
  end.

Fixpoint lookup_member (key : pystr) (members : list (pystr * json)) : option json :=
  match members with
  | [] => None
  | (k, v) :: rest => if bool_decide (k = key) then Some v else lookup_member key rest
  end.

(** [d.get(key, None)]: only a dictionary has the method. *)
Definition py_get (d : json) (key : pystr) : pyresult json :=
  match d with
  | JObj members => Ok (default JNull (lookup_member key members))
  | _ => Raise (AttributeError (type_name d) "get")
  end.

(** [key in container] for a string [key]: membership in the keys of a
    dictionary, in the items of a list, as a substring of a string; the
    other values are not iterable. *)
Definition is_str (key : pystr) (j : json) : bool :=
  match j with
  | JStr s => bool_decide (s = key)
  | _ => false
  end.

Definition py_in (key : pystr) (container : json) : pyresult bool :=
  match container with
  | JObj members => Ok (bool_decide (is_Some (lookup_member key members)))
  | JArr items => Ok (existsb (is_str key) items)
  | JStr s => Ok (contains s key)
  | _ => Raise TypeError
  end.

(** *** [json.dumps] with its default arguments *)

Definition hex_digit (n : N) : N :=
  if (n <? 10)%N then (48 + n)%N else (87 + n)%N.

Definition hex4 (n : N) : pystr :=
  [hex_digit (N.land (N.shiftr n 12) 15); hex_digit (N.land (N.shiftr n 8) 15);
   hex_digit (N.land (N.shiftr n 4) 15); hex_digit (N.land n 15)].

Definition u_escape (n : N) : pystr := [92; 117]%N ++ hex4 n.

(** One character of a string under [ensure_ascii=True]: the short escapes,
    printable ASCII as it is, [\uXXXX] for the rest, a surrogate pair above
    the basic plane. *)
Definition escape_char (c : N) : pystr :=
  if (c =? 92)%N then [92; 92]%N
  else if (c =? 34)%N then [92; 34]%N
  else if (c =? 8)%N then [92; 98]%N
  else if (c =? 12)%N then [92; 102]%N
  else if (c =? 10)%N then [92; 110]%N
  else if (c =? 13)%N then [92; 114]%N
  else if (c =? 9)%N then [92; 116]%N
  else if ((32 <=? c) && (c <=? 126))%N then [c]
  else if (c <? 65536)%N then u_escape c
  else let v := (c - 65536)%N in
       u_escape (N.lor 55296 (N.land (N.shiftr v 10) 1023))
       ++ u_escape (N.lor 56320 (N.land v 1023)).

Definition encode_basestring_ascii (s : pystr) : pystr :=
  [34%N] ++ mjoin (escape_char <$> s) ++ [34%N].

Definition str_of_Z (z : Z) : pystr := lit (NilZero.string_of_int (Z.to_int z)).

Fixpoint json_dumps (j : json) : pystr :=
  match j with
  | JNull => lit "null"
  | JBool true => lit "true"
  | JBool false => lit "false"
  | JInt z => str_of_Z z
  | JFloat r => r
  | JStr s => encode_basestring_ascii s
  | JArr items => lit "[" ++ join (lit ", ") (map json_dumps items) ++ lit "]"
  | JObj members =>
      lit "{"
      ++ join (lit ", ")
           (map (fun m => encode_basestring_ascii (fst m) ++ lit ": " ++ json_dumps (snd m))
                members)
      ++ lit "}"
  end.

(** ** [bytes]: UTF-8 decoding and base64 encoding *)

Definition is_continuation (n : N) : bool := ((128 <=? n) && (n <=? 191))%N.

Definition low6 (n : N) : N := N.land n 63.

(** [b.decode("utf-8")], strict: no overlong form, no surrogate, nothing
    above U+10FFFF. *)
Fixpoint utf8_decode (bs : list byte) : pyresult pystr :=
  match bs with
  | [] => Ok []
  | b0 :: rest =>
      let n0 := Byte.to_N b0 in
      if (n0 <? 128)%N then
        do s <- utf8_decode rest; Ok (n0 :: s)
      else if ((194 <=? n0) && (n0 <=? 223))%N then
        match rest with
        | b1 :: rest1 =>
            let n1 := Byte.to_N b1 in
            if is_continuation n1 then
              do s <- utf8_decode rest1;
              Ok (N.lor (N.shiftl (N.land n0 31) 6) (low6 n1) :: s)
            else Raise UnicodeDecodeError
        | _ => Raise UnicodeDecodeError
        end
      else if ((224 <=? n0) && (n0 <=? 239))%N then
        match rest with
        | b1 :: b2 :: rest2 =>
            let n1 := Byte.to_N b1 in
            let n2 := Byte.to_N b2 in
            let lo := if (n0 =? 224)%N then 160%N else 128%N in
            let hi := if (n0 =? 237)%N then 159%N else 191%N in
            if ((lo <=? n1) && (n1 <=? hi))%N && is_continuation n2 then
              do s <- utf8_decode rest2;
              Ok (N.lor (N.shiftl (N.land n0 15) 12)
                    (N.lor (N.shiftl (low6 n1) 6) (low6 n2)) :: s)
            else Raise UnicodeDecodeError
        | _ => Raise UnicodeDecodeError
        end
      else if ((240 <=? n0) && (n0 <=? 244))%N then
        match rest with
        | b1 :: b2 :: b3 :: rest3 =>
            let n1 := Byte.to_N b1 in
            let n2 := Byte.to_N b2 in
            let n3 := Byte.to_N b3 in
            let lo := if (n0 =? 240)%N then 144%N else 128%N in
            let hi := if (n0 =? 244)%N then 143%N else 191%N in
            if ((lo <=? n1) && (n1 <=? hi))%N && is_continuation n2 && is_continuation n3 then
              do s <- utf8_decode rest3;
              Ok (N.lor (N.shiftl (N.land n0 7) 18)
                    (N.lor (N.shiftl (low6 n1) 12)
                       (N.lor (N.shiftl (low6 n2) 6) (low6 n3))) :: s)
            else Raise UnicodeDecodeError
        | _ => Raise UnicodeDecodeError
        end
      else Raise UnicodeDecodeError
  end.

Module Base64.

Definition alphabet : list byte :=
  list_byte_of_string
    "ABCDEFGHIJKLMNOPQRSTUVWXYZabcdefghijklmnopqrstuvwxyz0123456789+/".

Definition pad : byte := x3d.

(** The character of a 6-bit group. *)
Definition char (i : N) : byte := nth (N.to_nat i) alphabet pad.

(** [base64.b64encode]: three bytes give four characters; a last group of
    one or two bytes is padded with [=]. *)
Fixpoint b64encode (bs : list byte) : list byte :=
  match bs with
  | [] => []
  | [a] =>
      let a := Byte.to_N a in
      [char (N.shiftr a 2); char (N.shiftl (N.land a 3) 4); pad; pad]
  | [a; b] =>
      let a := Byte.to_N a in
      let b := Byte.to_N b in
      [char (N.shiftr a 2);
       char (N.lor (N.shiftl (N.land a 3) 4) (N.shiftr b 4));
       char (N.shiftl (N.land b 15) 2); pad]
  | a :: b :: c :: rest =>
      let a := Byte.to_N a in
      let b := Byte.to_N b in
      let c := Byte.to_N c in
      char (N.shiftr a 2)
      :: char (N.lor (N.shiftl (N.land a 3) 4) (N.shiftr b 4))
      :: char (N.lor (N.shiftl (N.land b 15) 2) (N.shiftr c 6))
      :: char (N.land c 63)
      :: b64encode rest
  end.

End Base64.

(** A byte below 128 is the UTF-8 encoding of the character of that code. *)
Definition is_ascii (b : byte) : Prop := (Byte.to_N b < 128)%N.

(** ** Notebook 01: output file names *)

(** [base_filename.removesuffix(".pdf") + "_textract.txt"] and
    [... + "_bedrock.txt"]. *)
Definition dot_pdf : pystr := Eval cbv in lit ".pdf".
Definition textract_suffix : pystr := Eval cbv in lit "_textract.txt".
Definition bedrock_suffix : pystr := Eval cbv in lit "_bedrock.txt".

Definition output_filename (tail base_filename : pystr) : pystr :=
  removesuffix base_filename dot_pdf ++ tail.

Definition textract_output_filename : pystr → pystr := output_filename textract_suffix.
Definition bedrock_output_filename : pystr → pystr := output_filename bedrock_suffix.

(** ** Notebook 03: S3 URIs *)

Definition s3_scheme : pystr := Eval cbv in lit "s3://".
Definition slash : pystr := Eval cbv in lit "/".

(** [f"s3://{s3_bucket}/{s3_file_key}"] *)
Definition s3_uri (bucket key : pystr) : pystr :=
  s3_scheme ++ bucket ++ slash ++ key.

(** [s3_uri_parts = location.removeprefix("s3://").split("/", 1)] *)
Definition s3_uri_parts (location : pystr) : pyresult (list pystr) :=
  split (removeprefix location s3_scheme) slash 1.

(** The [Bucket] and [Key] arguments of the following [get_object] call:
    [s3_uri_parts[0]] and [s3_uri_parts[1]]. *)
Definition get_object_args (location : pystr) : pyresult (pystr * pystr) :=
  do parts <- s3_uri_parts location;
  do bucket <- getitem parts 0;
  do key <- getitem parts 1;
  Ok (bucket, key).

(** ** The world outside the kernel *)

(** The keyword arguments of [invoke_model_with_response_stream]. *)
Record request := {
  req_body : pystr;
  req_modelId : pystr;
  req_accept : pystr;
  req_contentType : pystr
}.

(** What a cell does that can be seen from outside, in the order it does it. *)
Inductive action : Type :=
  | Print (text : pystr)               (* the characters written on stdout *)
  | WriteFile (path text : pystr)      (* [open(path, "w")] and [write(text)] *)
  | InvokeModel (req : request).       (* one call of the streaming API *)

(** The log of actions and the text files on disk.  Opening a path for
    writing creates or truncates the file; directories and permissions are
    not modelled, a file is known by the spelling of its path, and a text
    is kept as it is, not encoded.  The store therefore does what [open]
    and [write] do for the files of a folder that exists, named without a
    detour, and for texts that can be encoded; the statements about files
    are made for those ([plain_key], [storable], [encodable] below). *)
Record world := {
  trace : list action;
  files : gmap pystr pystr
}.

Definition log (a : action) (w : world) : world :=
  {| trace := trace w ++ [a]; files := files w |}.

(** [print(text, end=line_end)]; a plain [print(text)] ends the line. *)
Definition newline : pystr := [10%N].

Definition print (text line_end : pystr) (w : world) : world :=
  log (Print (text ++ line_end)) w.

(** [with open(path, "w") as text_file: text_file.write(text)] *)
Definition write_text (path text : pystr) (w : world) : world :=
  {| trace := trace w ++ [WriteFile path text]; files := <[path := text]> (files w) |}.

(** The calls of the streaming API and the files written, in a list of
    actions. *)
Definition invocations (actions : list action) : list request :=
  omap (fun a => match a with InvokeModel req => Some req | _ => None end) actions.

Definition writes (actions : list action) : list (pystr * pystr) :=
  omap (fun a => match a with WriteFile path text => Some (path, text) | _ => None end) actions.

(** ** The streamed answer (notebooks 00, 01 and 02) *)

(** An event of the response stream as botocore hands it over: a dictionary
    with at most the member ["chunk"], itself a dictionary with at most the
    member ["bytes"]. *)
Record payload_part := { bytes : option (list byte) }.
Record event := { chunk : option payload_part }.

(** [response.get("body")]: the event stream, or [None]. *)
Record response := { response_body : option (list event) }.

Inductive flow : Type := Continue | Break.

(** The three notebooks with an invocation cell. *)
Inductive notebook : Type := Notebook00 | Notebook01 | Notebook02.

Section ModelInvocation.

(** [json.loads], applied to the decoded payload of a chunk. *)
Variable json_loads : pystr → pyresult json.

(** The service behind [bedrock_runtime.invoke_model_with_response_stream]. *)
Variable invoke_model_with_response_stream : request → pyresult response.

(** [repr] of a list or of a dictionary, as [print] shows them. *)
Variable container_repr : json → pystr.

(** [json.loads(chunk.get("bytes").decode())] *)
Definition chunk_obj_of (data : list byte) : pyresult json :=
  do text <- utf8_decode data;
  json_loads text.

(** The lines the three cells share, from [chunk = event.get("chunk")] to
    [text = delta_obj.get("text", None)]: the value of [text] when the
    event reaches that line, [None] when one of the [if]s skips it. *)
Definition text_of_event (event : event) : pyresult (option json) :=
  match chunk event with
  | Some {| bytes := Some data |} =>                      (* if chunk: *)
      do chunk_obj <- chunk_obj_of data;
      do has_delta <- py_in (lit "delta") chunk_obj;      (* if "delta" in chunk_obj: *)
      if has_delta : bool then
        do delta_obj <- py_get chunk_obj (lit "delta");
        if truthy delta_obj then                          (* if delta_obj: *)
          do text <- py_get delta_obj (lit "text");
          Ok (Some text)
        else Ok None
      else Ok None
  | _ => Ok None
  end.

(** One pass through the body of [for event in stream] in notebooks 01 and
    02. *)
Definition on_event (event : event) (output : pystr) (w : world)
  : pystr * world * pyresult flow :=
  match text_of_event event with
  | Raise e => (output, w, Raise e)
  | Ok None => (output, w, Ok Continue)
  | Ok (Some JNull) =>
      (* [text is not None] fails; [not text] holds *)
      (output, w, Ok Break)
  | Ok (Some (JStr s as text)) =>
      (* output += text, then print(text) with an empty end *)
      (output ++ s, print s [] w, Ok (if truthy text then Continue else Break))
  | Ok (Some _) =>
      (* [output += text] on a value that is no string *)
      (output, w, Raise TypeError)
  end.

Fixpoint for_events (stream : list event) (output : pystr) (w : world)
  : pystr * world * pyresult unit :=
  match stream with
  | [] => (output, w, Ok ())
  | event :: rest =>
      match on_event event output w with
      | (output', w', Ok Continue) => for_events rest output' w'
      | (output', w', Ok Break) => (output', w', Ok ())
      | (output', w', Raise e) => (output', w', Raise e)
      end
  end.

(** [str(text)], which [print] writes. *)
Definition py_str (text : json) : pystr :=
  match text with
  | JNull => lit "None"
  | JBool true => lit "True"
  | JBool false => lit "False"
  | JInt z => str_of_Z z
  | JFloat r => r
  | JStr s => s
  | JArr _ | JObj _ => container_repr text
  end.

(** The loop of notebook 00, which prints [text] and accumulates nothing. *)
Definition on_event_00 (event : event) (w : world) : world * pyresult flow :=
  match text_of_event event with
  | Raise e => (w, Raise e)
  | Ok None => (w, Ok Continue)
  | Ok (Some text) =>
      (* print(text) with an empty end *)
      (print (py_str text) [] w, Ok (if truthy text then Continue else Break))
  end.

Fixpoint for_events_00 (stream : list event) (w : world) : world * pyresult unit :=
  match stream with
  | [] => (w, Ok ())
  | event :: rest =>
      match on_event_00 event w with
      | (w', Ok Continue) => for_events_00 rest w'
      | (w', Ok Break) => (w', Ok ())
      | (w', Raise e) => (w', Raise e)
      end
  end.

(** The [try] block.  The first component is the binding of the variable
    [output] that the block leaves behind ([None]: not assigned): the empty
    list in notebook 00, the accumulated string in the other two.  In
    notebook 01 the final [print] of an empty line follows the [if stream:], in notebook
    02 it is inside it, notebook 00 has none. *)
Definition try_block (nb : notebook) (req : request) (w : world)
  : option json * world * pyresult unit :=
  let w := log (InvokeModel req) w in
  match invoke_model_with_response_stream req with
  | Raise e => (None, w, Raise e)
  | Ok response =>
      match nb with
      | Notebook00 =>
          let output := JArr [] in
          match response_body response with
          | Some stream =>                                (* if stream: *)
              let '(w, r) := for_events_00 stream w in (Some output, w, r)
          | None => (Some output, w, Ok ())
          end
      | _ =>
          let output := [] in
          match response_body response with
          | Some stream =>                                (* if stream: *)
              match for_events stream output w with
              | (output, w, Ok _) => (Some (JStr output), print [] newline w, Ok ())
              | (output, w, Raise e) => (Some (JStr output), w, Raise e)
              end
          | None =>
              (Some (JStr output),
               match nb with Notebook01 => print [] newline w | _ => w end,
               Ok ())
          end
      end
  end.

(** The text of the remediation hint.  Each continuation line of the
    source starts with sixteen blanks, which are part of the string; the
    notebooks differ in the spelling of one word. *)
Definition blanks : pystr := replicate 16 32%N.

Definition hint (nb : notebook) (message : pystr) : pystr :=
  [27%N] ++ lit "[41m" ++ message
  ++ blanks ++ newline
  ++ (match nb with
      | Notebook01 => lit "To troubleshoot this issue please refer to the following resources."
      | _ => lit "To troubeshoot this issue please refer to the following resources."
      end)
  ++ blanks ++ newline
  ++ lit "https://docs.aws.amazon.com/IAM/latest/UserGuide/troubleshoot_access-denied.html"
  ++ blanks ++ newline
  ++ lit "https://docs.aws.amazon.com/bedrock/latest/userguide/security-iam.html"
  ++ [27%N] ++ lit "[0m" ++ newline.

(** What becomes of an exception that leaves the [try] block. *)
Inductive disposition : Type :=
  | Handled                   (* caught, the hint printed, the cell goes on *)
  | Reraised (error : exn)    (* caught and raised again by [raise error] *)
  | Uncaught (error : exn).   (* no [except] clause matches *)

Definition access_denied : pystr := Eval cbv in lit "AccessDeniedException".

(** [except botocore.exceptions.ClientError as error: ...] *)
Definition except_clause (nb : notebook) (error : exn) (w : world)
  : world * disposition :=
  match error with
  | ClientError code message =>
      if bool_decide (code = access_denied)
      then (print (hint nb message) newline w, Handled)
      else (w, Reraised error)
  | _ => (w, Uncaught error)
  end.

Definition outcome (d : disposition) : pyresult unit :=
  match d with
  | Handled => Ok ()
  | Reraised error | Uncaught error => Raise error
  end.

(** The whole cell: the [try] block under its single [except] clause. *)
Definition invoke_cell (nb : notebook) (req : request) (w : world)
  : option json * world * pyresult unit :=
  match try_block nb req w with
  | (output, w, Ok _) => (output, w, Ok ())
  | (output, w, Raise error) =>
      let '(w, d) := except_clause nb error w in
      (output, w, outcome d)
  end.

(** *** The stream in the words of the specification *)

(** The ["delta"] of an event, when the event carries a non-empty chunk
    whose parsed JSON has a truthy ["delta"]. *)
Definition event_delta (event : event) : option json :=
  match chunk event with
  | Some {| bytes := Some data |} =>
      match chunk_obj_of data with
      | Ok (JObj members) =>
          match lookup_member (lit "delta") members with
          | Some delta => if truthy delta then Some delta else None
          | None => None
          end
      | _ => None
      end
  | _ => None
  end.

(** The ["text"] field of a delta object; [None] when it is absent.  A
    field that holds [null] counts as absent: [get] gives [None] for both. *)
Definition delta_text (delta : json) : option pystr :=
  match delta with
  | JObj members =>
      match lookup_member (lit "text") members with
      | Some (JStr s) => Some s
      | _ => None
      end
  | _ => None
  end.

(** The texts up to the first one that is absent or empty. *)
Fixpoint texts_until_stop (texts : list (option pystr)) : list pystr :=
  match texts with
  | Some (c :: s) :: rest => (c :: s) :: texts_until_stop rest
  | _ => []
  end.

Definition expected_output (stream : list event) : pystr :=
  mjoin (texts_until_stop (delta_text <$> omap event_delta stream)).

(** The shape the messages API gives its events: the payload of a
    non-empty chunk is JSON text for a dictionary; its ["delta"], when
    truthy, is a dictionary; the ["text"] of that one, when present, is a
    string or [null]. *)
Definition delta_well_formed (delta : json) : Prop :=
  match delta with
  | JObj members =>
      match lookup_member (lit "text") members with
      | Some text => text = JNull ∨ ∃ s, text = JStr s
      | None => True
      end
  | _ => truthy delta = false
  end.

Definition event_well_formed (event : event) : Prop :=
  match chunk event with
  | Some {| bytes := Some data |} =>
      ∃ members, chunk_obj_of data = Ok (JObj members)
        ∧ match lookup_member (lit "delta") members with
          | Some delta => delta_well_formed delta
          | None => True
          end
  | _ => True
  end.

End ModelInvocation.

(** What one pass of the loop does, read off the delta of the event. *)
Definition step_of_delta (delta : option json) (output : pystr) (w : world)
  : pystr * world * pyresult flow :=
  match delta with
  | None => (output, w, Ok Continue)
  | Some delta =>
      match delta_text delta with
      | Some (c :: s) => (output ++ c :: s, print (c :: s) [] w, Ok Continue)
      | Some [] => (output, print [] [] w, Ok Break)
      | None => (output, w, Ok Break)
      end
  end.

(** ** Notebook 01: the listing and the Textractor loop *)

(** An entry of [response["Contents"]]. *)
Record s3_object := { Key : pystr }.

(** [file_objects = response["Contents"]]: the member is missing from the
    answer of [list_objects_v2] when the bucket is empty. *)
Definition file_objects (contents : option (list s3_object)) : pyresult (list s3_object) :=
  match contents with
  | Some objects => Ok objects
  | None => Raise (KeyError (lit "Contents"))
  end.

(** [for obj in file_objects: print(obj["Key"])] *)
Definition print_keys (objects : list s3_object) (w : world) : world :=
  foldl (fun w obj => print (Key obj) newline w) w objects.

(** What the name [document] can hold: [None], or a Textractor document
    with the text its [get_text] gives under the Markdown configuration. *)
Inductive pyobj : Type :=
  | PyNone
  | Document (text : pystr).

(** [document.get_text(config=MarkdownLinearizationConfig)] *)
Definition get_text (document : pyobj) : pyresult pystr :=
  match document with
  | Document text => Ok text
  | PyNone => Raise (AttributeError "NoneType" "get_text")
  end.

Definition output_path : pystr := Eval cbv in lit "processed-files".

Section TextractorLoop.

(** The bucket name of the preparation cell. *)
Variable s3_bucket : pystr.

(** The statement between the two [TASK 1] banners, as a function of
    [s3_filename]: what it leaves in [document], or the exception it ends
    with.  It is taken to do nothing else, as a call of Textractor on a
    document in S3 does: it prints nothing and writes no local file. *)
Variable task1 : pystr → pyresult pyobj.

(** The body of [for obj in file_objects]. *)
Definition process_object (obj : s3_object) (w : world) : world * pyresult unit :=
  let w := print (lit "Processing " ++ Key obj) newline w in
  let base_filename := Key obj in
  let s3_filename := s3_uri s3_bucket base_filename in
  let output_filename := textract_output_filename base_filename in
  match task1 s3_filename with
  | Raise e => (w, Raise e)
  | Ok document =>
      match get_text document with
      | Raise e => (w, Raise e)
      | Ok document_text =>
          let w := write_text (os_path_join output_path output_filename) document_text w in
          (print (lit "---") newline w, Ok ())
      end
  end.

Fixpoint textractor_loop (objects : list s3_object) (w : world) : world * pyresult unit :=
  match objects with
  | [] => (w, Ok ())
  | obj :: rest =>
      match process_object obj w with
      | (w, Ok _) => textractor_loop rest w
      | (w, Raise e) => (w, Raise e)
      end
  end.

End TextractorLoop.



(** The file of an object, and what one pass of the loop shows of an
    object whose document has the text [document_text]. *)
Definition output_file (obj : s3_object) : pystr :=
  os_path_join output_path (textract_output_filename (Key obj)).

Definition object_actions (obj : s3_object) (document_text : pystr) : list action :=
  [ Print (lit "Processing " ++ Key obj ++ newline);
    WriteFile (output_file obj) document_text;
    Print (lit "---" ++ newline) ].

(** A statement for task 1 that leaves a document for [obj], and the text
    of that document. *)
Definition produces_document (s3_bucket : pystr) (task1 : pystr → pyresult pyobj)
    (obj : s3_object) : Prop :=
  ∃ text, task1 (s3_uri s3_bucket (Key obj)) = Ok (Document text).

Definition document_text (s3_bucket : pystr) (task1 : pystr → pyresult pyobj)
    (obj : s3_object) : pystr :=
  match task1 (s3_uri s3_bucket (Key obj)) with
  | Ok (Document text) => text
  | _ => []
  end.

(** The actions of the passes for a list of objects, one object after the
    other. *)
Fixpoint loop_actions (s3_bucket : pystr) (task1 : pystr → pyresult pyobj)
    (objects : list s3_object) : list action :=
  match objects with
  | [] => []
  | obj :: rest =>
      object_actions obj (document_text s3_bucket task1 obj)
      ++ loop_actions s3_bucket task1 rest
  end.

(** ** Notebook 01: the pages of a PDF as base64 strings *)

(** What [image.save] can be given as its target: the name of a file, or a
    file-like object such as the [BytesIO] buffer of the source. *)
Inductive file_like : Type :=
  | Filename (path : pystr)
  | Buffer (content : list byte).

Section PdfPages.

(** A page image of [pdf2image], the binary files on disk, the renderer (it
    reads the PDF and hands the pages over in memory when no output folder
    is given), the bytes of a page in JPEG format, and the writing of a
    binary file. *)
Variable image : Type.
Variable binary_files : Type.
Variable convert_from_path : binary_files → pystr → pyresult (list image).
Variable jpeg : image → list byte.
Variable write_file : binary_files → pystr → list byte → binary_files.

(** [BytesIO()] *)
Definition BytesIO : file_like := Buffer [].

(** [image.save(fp, format="JPEG")]: to the file of that name, or into the
    buffer. *)
Definition save (image : image) (fp : file_like) (disk : binary_files)
  : binary_files * file_like :=
  match fp with
  | Filename path => (write_file disk path (jpeg image), fp)
  | Buffer content => (disk, Buffer (content ++ jpeg image))
  end.

(** [buffered.getvalue()]; a file name has no such method. *)
Definition getvalue (buffered : file_like) : pyresult (list byte) :=
  match buffered with
  | Buffer content => Ok content
  | Filename _ => Raise (AttributeError "str" "getvalue")
  end.

(** The body of [for image in images], with [base64_img_strs] and the disk
    threaded through. *)
Fixpoint encode_images (images : list image) (base64_img_strs : list pystr)
    (disk : binary_files) : binary_files * pyresult (list pystr) :=
  match images with
  | [] => (disk, Ok base64_img_strs)
  | image :: rest =>
      let buffered := BytesIO in
      let '(disk, buffered) := save image buffered disk in
      match (do value <- getvalue buffered;
             let img_str := Base64.b64encode value in
             utf8_decode img_str) with
      | Raise e => (disk, Raise e)
      | Ok base64_string => encode_images rest (base64_img_strs ++ [base64_string]) disk
      end
  end.

Definition get_base64_encoded_images_from_pdf (disk : binary_files) (pdf_file_path : pystr)
  : binary_files * pyresult (list pystr) :=
  match convert_from_path disk pdf_file_path with
  | Raise e => (disk, Raise e)
  | Ok images => encode_images images [] disk
  end.

End PdfPages.

Arguments save {image binary_files} jpeg write_file image fp disk.
Arguments encode_images {image binary_files} jpeg write_file images base64_img_strs disk.
Arguments get_base64_encoded_images_from_pdf {image binary_files}
  convert_from_path jpeg write_file disk pdf_file_path.

(** ** Notebook 01: the multimodal request *)

Definition image_entry (image_str : pystr) : json :=
  JObj [ (lit "type", JStr (lit "image"));
         (lit "source",
          JObj [ (lit "type", JStr (lit "base64"));
                 (lit "media_type", JStr (lit "image/jpeg"));
                 (lit "data", JStr image_str) ]) ].

Definition text_entry (prompt : pystr) : json :=
  JObj [ (lit "type", JStr (lit "text")); (lit "text", JStr prompt) ].

(** The list comprehension followed by [messages_content.append(...)]. *)
Definition messages_content (images : list pystr) (prompt : pystr) : list json :=
  (image_entry <$> images) ++ [text_entry prompt].

Definition messages (images : list pystr) (prompt : pystr) : list json :=
  [ JObj [ (lit "role", JStr (lit "user"));
           (lit "content", JArr (messages_content images prompt)) ] ].

(** The dictionary given to [json.dumps], and [body]. *)
Definition body_dict (system_prompt : pystr) (messages : list json) : json :=
  JObj [ (lit "max_tokens", JInt 4096);
         (lit "system", JStr system_prompt);
         (lit "temperature", JFloat (lit "0.0"));
         (lit "messages", JArr messages);
         (lit "anthropic_version", JStr (lit "bedrock-2023-05-31")) ].

Definition body (system_prompt : pystr) (messages : list json) : pystr :=
  json_dumps (body_dict system_prompt messages).

Definition modelId : pystr := Eval cbv in lit "anthropic.claude-3-haiku-20240307-v1:0".

Definition ocr_request (system_prompt prompt : pystr) (images : list pystr) : request :=
  {| req_body := body system_prompt (messages images prompt);
     req_modelId := modelId;
     req_accept := lit "application/json";
     req_contentType := lit "application/json" |}.

(** ** Notebook 02: the cell of task 3 *)

(** The cell between the two [TASK 3] banners is [json_file = {}]; [output]
    is the text the invocation cell accumulated before it. *)
Definition json_file (output : pystr) : json := JObj [].

(** ** Notebook 03: the data-automation job *)

(** Values of the kernel's global names. *)
#[warnings="-register-all"]
Inductive pyval : Type :=
  | VStr (s : pystr)
  | VTuple (items : list pyval)
  | VList (items : list pyval)
  | VDict (members : list (string * pyval))
  | VObject (description : string).

(** Reading a global name. *)
Definition load (globals : gmap string pyval) (name : string) : pyresult pyval :=
  match globals !! name with
  | Some v => Ok v
  | None => Raise (NameError name)
  end.

(** [d[key]] *)
Definition subscript (d : pyval) (key : string) : pyresult pyval :=
  match d with
  | VDict members =>
      match list_find (fun m => fst m = key) members with
      | Some (_, (_, v)) => Ok v
      | None => Raise (KeyError (lit key))
      end
  | _ => Raise TypeError
  end.

(** The names the cells above the invocation cell assign or import, in the
    order of the notebook. *)
Definition names_bound_before_invocation : list string :=
  [ "json"; "os"; "boto3"; "botocore";
    "bda_client"; "bda_runtime_client";
    "ACCOUNT_ID"; "REGION_ID"; "input_path"; "output_path"; "s3_bucket";
    "s3_client"; "response"; "file_objects"; "obj"; "s3_file_key";
    "blueprint_name"; "blueprint_description"; "blueprint_type"; "blueprint_stage";
    "blueprint_schema";
    "list_blueprints_response"; "blueprint"; "blueprint_arn" ].

Section DataAutomation.

(** [str(v)] for a value that is not a string, as an f-string needs it. *)
Variable str_of : pyval → pystr.

(** The service behind [invoke_data_automation_async], given its keyword
    arguments. *)
Variable invoke_data_automation_async : list (string * pyval) → pyresult pyval.

Definition format (v : pyval) : pystr :=
  match v with
  | VStr s => s
  | _ => str_of v
  end.

(** The f-string of the first statement. *)
Definition profile_arn (region_id account_id : pystr) : pystr :=
  lit "arn:aws:bedrock:" ++ region_id ++ lit ":" ++ account_id
  ++ lit ":data-automation-profile/us.data-automation-v1".

(** [dataAutomationProfileArn = (f"...",)]: the comma after the f-string
    makes the right-hand side a tuple of one element. *)
Definition assign_profile_arn (globals : gmap string pyval)
  : pyresult (gmap string pyval) :=
  do region_id <- load globals "REGION_ID";
  do account_id <- load globals "ACCOUNT_ID";
  Ok (<["dataAutomationProfileArn" :=
        VTuple [VStr (profile_arn (format region_id) (format account_id))]]> globals).

(** The keyword arguments of the call, evaluated left to right after the
    callee.  The callee is the method of the value of [bda_runtime_client];
    looking the method up is taken to succeed, as it does on the client the
    notebook creates. *)
Definition call_arguments (globals : gmap string pyval)
  : pyresult (list (string * pyval)) :=
  do _client <- load globals "bda_runtime_client";
  do s3_bucket <- load globals "s3_bucket";
  do s3_file_key <- load globals "s3_file_key";
  let input_uri := s3_uri (format s3_bucket) (format s3_file_key) in
  do s3_bucket' <- load globals "s3_bucket";
  let output_uri := lit "s3://" ++ format s3_bucket' ++ lit "/bda-outputs" in
  do blueprint_arn <- load globals "blueprint_arn";
  do default_profile_arn <- load globals "default_profile_arn";
  Ok [ ("inputConfiguration", VDict [("s3Uri", VStr input_uri)]);
       ("outputConfiguration", VDict [("s3Uri", VStr output_uri)]);
       ("blueprints", VList [VDict [("blueprintArn", blueprint_arn)]]);
       ("dataAutomationProfileArn", default_profile_arn) ].

(** The whole cell: the globals and the standard output it leaves, and
    how it ends. *)
Definition invocation_cell (globals : gmap string pyval)
  : gmap string pyval * list pystr * pyresult unit :=
  match assign_profile_arn globals with
  | Raise e => (globals, [], Raise e)
  | Ok globals =>
      match (do kwargs <- call_arguments globals;
             invoke_data_automation_async kwargs) with
      | Raise e => (globals, [], Raise e)
      | Ok response =>
          let globals := <["response" := response]> globals in
          match subscript response "invocationArn" with
          | Raise e => (globals, [], Raise e)
          | Ok invocationArn =>
              (<["invocationArn" := invocationArn]> globals,
               [lit "Invoked data automation job with invocation arn "
                ++ format invocationArn ++ newline],
               Ok ())
          end
      end
  end.

End DataAutomation.

(** ** A recorded exchange *)

(** The bytes of an ASCII text. *)
Definition ascii_bytes (s : pystr) : list byte := omap Byte.of_N s.

(** Payloads of one answer of the messages API, parsed. *)
Definition message_start : json :=
  JObj [ (lit "type", JStr (lit "message_start"));
         (lit "message", JObj [ (lit "role", JStr (lit "assistant")) ]) ].

Definition content_block_delta (text : pystr) : json :=
  JObj [ (lit "type", JStr (lit "content_block_delta"));
         (lit "index", JInt 0);
         (lit "delta", JObj [ (lit "type", JStr (lit "text_delta"));
                              (lit "text", JStr text) ]) ].

Definition content_block_stop : json :=
  JObj [ (lit "type", JStr (lit "content_block_stop")); (lit "index", JInt 0) ].

Definition message_delta : json :=
  JObj [ (lit "type", JStr (lit "message_delta"));
         (lit "delta", JObj [ (lit "stop_reason", JStr (lit "end_turn"));
                              (lit "stop_sequence", JNull) ]);
         (lit "usage", JObj [ (lit "output_tokens", JInt 5) ]) ].

Definition message_stop : json :=
  JObj [ (lit "type", JStr (lit "message_stop")) ].

Definition recorded_payloads : list json :=
  [ message_start;
    content_block_delta (lit "Amazon");
    content_block_delta (lit " Web Services");
    content_block_stop;
    message_delta;
    message_stop ].

(** [json.loads] on the texts of the recorded payloads: each is read back
    as the value it was written from; any other text is refused. *)
Definition recorded_json_loads (text : pystr) : pyresult json :=
  match list_find (fun j => json_dumps j = text) recorded_payloads with
  | Some (_, j) => Ok j
  | None => Raise JSONDecodeError
  end.

Definition chunk_event (payload : json) : event :=
  {| chunk := Some {| bytes := Some (ascii_bytes (json_dumps payload)) |} |}.

(** The recorded stream, with one event that carries no chunk. *)
Definition recorded_stream : list event :=
  {| chunk := None |} :: (chunk_event <$> recorded_payloads).

Definition empty_world : world := {| trace := []; files := ∅ |}.

(** A service that streams the recorded answer, and one that refuses the
    caller. *)
Definition recorded_service (req : request) : pyresult response :=
  Ok {| response_body := Some recorded_stream |}.

Definition denying_service (req : request) : pyresult response :=
  Raise (ClientError (lit "AccessDeniedException")
                     (lit "You don't have access to the model.")).

Definition throttling_service (req : request) : pyresult response :=
  Raise (ClientError (lit "ThrottlingException") (lit "Too many requests.")).

Definition no_repr (container : json) : pystr := [].

(** The request of notebook 01 with the prompts the notebook ships and the
    two pages of the recorded PDF. *)
Definition system_prompt : pystr := lit "Always reply 'Amazon Web Services'.".
Definition prompt : pystr := lit "Here is the document.".

Definition recorded_request : request :=
  ocr_request system_prompt prompt [ lit "/9hMTGH/2Q=="; lit "/9hNQf/Z" ].




(** A disk with a PDF of two pages, a renderer that reads the pages off the
    disk, and an encoder that frames the pixels of a page between the JPEG
    markers. *)
Definition recorded_disk : gmap pystr (list (list byte)) :=
  {[ lit "demo-files/2302.13971v1.pdf" := [ [x4c; x4c; x61]; [x4d; x41] ] ]}.

Definition recorded_convert_from_path (disk : gmap pystr (list (list byte)))
    (pdf_file_path : pystr) : pyresult (list (list byte)) :=
  match disk !! pdf_file_path with
  | Some pages => Ok pages
  | None => Raise (FileNotFoundError pdf_file_path)
  end.

Definition recorded_jpeg (pixels : list byte) : list byte :=
  [xff; xd8] ++ pixels ++ [xff; xd9].

(** Writing a file of one page on that disk. *)
Definition recorded_write_file (disk : gmap pystr (list (list byte)))
    (path : pystr) (data : list byte) : gmap pystr (list (list byte)) :=
  <[path := [data]]> disk.

(** An answer of the model to the extraction prompt of notebook 02: the JSON
    it was asked for, between the tags it was asked to use. *)
Definition recorded_answer : json :=
  JObj [ (lit "Title", JStr (lit "Mistral 7B")) ].

Definition recorded_output : pystr :=
  lit "<json>" ++ json_dumps recorded_answer ++ lit "</json>".

(** The globals of notebook 03 when the invocation cell is reached, for the
    account 123456789012. *)
Definition recorded_globals : gmap string pyval :=
  list_to_map
    [ ("json", VObject "module"); ("os", VObject "module");
      ("boto3", VObject "module"); ("botocore", VObject "module");
      ("bda_client", VObject "client"); ("bda_runtime_client", VObject "client");
      ("ACCOUNT_ID", VStr (lit "123456789012")); ("REGION_ID", VStr (lit "us-west-2"));
      ("input_path", VStr (lit "demo-files")); ("output_path", VStr (lit "processed-files"));
      ("s3_bucket", VStr (lit "information-extraction-workshop-123456789012"));
      ("s3_client", VObject "client"); ("response", VDict []);
      ("file_objects", VList []); ("obj", VDict []);
      ("s3_file_key", VStr (lit "2302.13971v1.pdf"));
      ("blueprint_name", VStr (lit "test-brand-new-blueprint"));
      ("blueprint_description", VStr (lit "blueprint-description"));
      ("blueprint_type", VStr (lit "DOCUMENT")); ("blueprint_stage", VStr (lit "LIVE"));
      ("blueprint_schema", VDict []);
      ("list_blueprints_response", VDict []); ("blueprint", VDict []);
      ("blueprint_arn", VStr (lit "arn:aws:bedrock:us-west-2:123456789012:blueprint/b1")) ].

(** A service that accepts every job. *)
Definition recorded_data_automation (kwargs : list (string * pyval)) : pyresult pyval :=
  Ok (VDict [ ("invocationArn", VStr (lit "arn:aws:bedrock:us-west-2:123456789012:job/j1")) ]).

Definition no_str (v : pyval) : pystr := [].

(** ** The standard output of a cell *)

(** The characters a list of actions leaves on the standard output. *)
Definition stdout (actions : list action) : pystr :=
  mjoin (omap (fun a => match a with Print text => Some text | _ => None end) actions).

(** ** The streamed answer: what ends a loop early *)

Section StreamFailures.

Variable json_loads : pystr → pyresult json.

(** The exception a pass of the loop of notebooks 01 and 02 ends with on an
    event, if it ends with one: an exception raised on the way to [text],
    or the [TypeError] of [output += text] on a text that is no string. *)
Definition failure_of_event (event : event) : option exn :=
  match text_of_event json_loads event with
  | Raise e => Some e
  | Ok None | Ok (Some JNull) | Ok (Some (JStr _)) => None
  | Ok (Some _) => Some TypeError
  end.

(** An event after which the loop reads the next one: it has no delta, or
    the text of its delta is a string that is not empty. *)
Definition goes_on (event : event) : Prop :=
  match event_delta json_loads event with
  | None => True
  | Some delta => ∃ c s, delta_text delta = Some (c :: s)
  end.

End StreamFailures.

(** Whether a list of texts ends the loop on a text that is absent, before
    any empty one. *)
Fixpoint stops_on_missing_text (texts : list (option pystr)) : bool :=
  match texts with
  | Some (_ :: _) :: rest => stops_on_missing_text rest
  | None :: _ => true
  | _ => false
  end.

(** ** Notebook 00: the request *)

(** [messages_API_body], and the keyword arguments of the call. *)
Definition messages_API_body (prompt_data : pystr) : json :=
  JObj [ (lit "anthropic_version", JStr (lit "bedrock-2023-05-31"));
         (lit "max_tokens", JInt 1024);
         (lit "messages",
          JArr [ JObj [ (lit "role", JStr (lit "user"));
                        (lit "content", JArr [text_entry prompt_data]) ] ]) ].

Definition prerequisites_request (prompt_data : pystr) : request :=
  {| req_body := json_dumps (messages_API_body prompt_data);
     req_modelId := modelId;
     req_accept := lit "application/json";
     req_contentType := lit "application/json" |}.

(** ** Notebook 02: the document and the request *)







(** [messages] of notebook 02: one user message with one text entry. *)
Definition text_messages (prompt : pystr) : list json :=
  [ JObj [ (lit "role", JStr (lit "user"));
           (lit "content", JArr [text_entry prompt]) ] ].

Definition attributes_request (system_prompt prompt : pystr) : request :=
  {| req_body := body system_prompt (text_messages prompt);
     req_modelId := modelId;
     req_accept := lit "application/json";
     req_contentType := lit "application/json" |}.

(** ** Notebook 01: the export cell *)

(** [base_filename = obj["Key"]], the name with [_bedrock.txt], and the
    writing of [output] under [output_path].  (The cell also rebuilds
    [s3_filename], which it does not use.) *)
Definition export_cell (obj : s3_object) (output : pystr) (w : world) : world :=
  let base_filename := Key obj in
  let output_filename := bedrock_output_filename base_filename in
  write_text (os_path_join output_path output_filename) output w.

(** ** Characters of a request body and of a base64 string *)

Definition printable (c : N) : bool := ((32 <=? c) && (c <=? 126))%N.

(** A text of printable ASCII characters, blank to tilde. *)
Definition printable_text (s : pystr) : Prop := Forall (fun c => (32 ≤ c ≤ 126)%N) s.

(** The floats of a value all have a [repr] of printable characters, as the
    finite floats have. *)
Fixpoint plain_floats (j : json) : bool :=
  match j with
  | JFloat r => forallb printable r
  | JArr items => forallb plain_floats items
  | JObj members => forallb (fun m => plain_floats (snd m)) members
  | _ => true
  end.

(** The sixty-four characters of the base64 alphabet and the padding. *)
Definition base64_chars : pystr :=
  Eval cbv in Byte.to_N <$> (Base64.pad :: Base64.alphabet).

Definition base64_text (s : pystr) : Prop := Forall (fun c => c ∈ base64_chars) s.

(** ** Notebook 03: the blueprint *)

(** What a cell of notebook 03 does that can be seen from outside. *)
Inductive bda_action : Type :=
  | BdaPrint (text : pystr)
  | ListBlueprints (kwargs : list (string * pyval))
  | CreateBlueprint (kwargs : list (string * pyval))
  | UpdateBlueprint (kwargs : list (string * pyval))
  | GetObject (bucket key : pystr).

(** [v == s] for a string [s], [key in container], [for x in v] and the
    truth value, on the values of the kernel. *)
Definition is_vstr (s : pystr) (v : pyval) : bool :=
  match v with
  | VStr s' => bool_decide (s' = s)
  | _ => false
  end.

Definition val_in (key : string) (container : pyval) : pyresult bool :=
  match container with
  | VDict members => Ok (bool_decide (is_Some (list_find (fun m => fst m = key) members)))
  | VTuple items | VList items => Ok (existsb (is_vstr (lit key)) items)
  | VStr s => Ok (contains s (lit key))
  | VObject _ => Raise TypeError
  end.

Definition iterate (v : pyval) : pyresult (list pyval) :=
  match v with
  | VList items | VTuple items => Ok items
  | VDict members => Ok ((fun m => VStr (lit (fst m))) <$> members)
  | VStr s => Ok ((fun c => VStr [c]) <$> s)
  | VObject _ => Raise TypeError
  end.

Definition val_truthy (v : pyval) : bool :=
  match v with
  | VStr s => negb (bool_decide (s = []))
  | VTuple items | VList items => match items with [] => false | _ => true end
  | VDict members => match members with [] => false | _ => true end
  | VObject _ => true
  end.

(** The condition of the generator,
    ["blueprintName" in blueprint and blueprint["blueprintName"] == blueprint_name];
    [and] evaluates its right operand only when the left one holds. *)
Definition has_name (blueprint_name : pystr) (blueprint : pyval) : pyresult bool :=
  do named <- val_in "blueprintName" blueprint;
  if named : bool then
    do name <- subscript blueprint "blueprintName";
    Ok (is_vstr blueprint_name name)
  else Ok false.

(** [next((blueprint for blueprint in blueprints if ...), None)] *)
Fixpoint next_blueprint (blueprint_name : pystr) (blueprints : list pyval)
  : pyresult (option pyval) :=
  match blueprints with
  | [] => Ok None
  | blueprint :: rest =>
      do found <- has_name blueprint_name blueprint;
      if found : bool then Ok (Some blueprint)
      else next_blueprint blueprint_name rest
  end.

(** [blueprint_schema], with the description of the cell above it. *)
Definition schema_property (instruction : pystr) : json :=
  JObj [ (lit "type", JStr (lit "string"));
         (lit "inferenceType", JStr (lit "inferred"));
         (lit "instruction", JStr instruction) ].

Definition blueprint_schema (blueprint_description : pystr) : json :=
  JObj [ (lit "$schema", JStr (lit "http://json-schema.org/draft-07/schema#"));
         (lit "class", JStr (lit "custom-document-class"));
         (lit "description", JStr blueprint_description);
         (lit "definitions", JObj []);
         (lit "properties",
          JObj [ (lit "summary", schema_property (lit "document summary"));
                 (lit "title", schema_property (lit "title of the document"));
                 (lit "language", schema_property (lit "language of the document")) ]) ].

Section Blueprint.

(** The services behind [bda_client.list_blueprints], [create_blueprint] and
    [update_blueprint], given their keyword arguments. *)
Variable list_blueprints : list (string * pyval) → pyresult pyval.
Variable create_blueprint : list (string * pyval) → pyresult pyval.
Variable update_blueprint : list (string * pyval) → pyresult pyval.

(** The first statement of the cell and the generator: the blueprint found,
    or [None]. *)
Definition find_blueprint (blueprint_name : pystr) : pyresult (option pyval) :=
  do list_blueprints_response <- list_blueprints [("blueprintStageFilter", VStr (lit "ALL"))];
  do blueprints <- subscript list_blueprints_response "blueprints";
  do items <- iterate blueprints;
  next_blueprint blueprint_name items.

(** The branch of [if not blueprint:]. *)
Definition create_branch (blueprint_name blueprint_type blueprint_stage : pystr)
    (schema : json) : list bda_action * pyresult pyval :=
  let kwargs :=
    [ ("blueprintName", VStr blueprint_name);
      ("type", VStr blueprint_type);
      ("blueprintStage", VStr blueprint_stage);
      ("schema", VStr (json_dumps schema)) ] in
  match create_blueprint kwargs with
  | Raise e => ([CreateBlueprint kwargs], Raise e)
  | Ok response =>
      ([ CreateBlueprint kwargs;
         BdaPrint (lit "Creating new blueprint with name=" ++ blueprint_name
                   ++ lit ", updating Stage and Schema" ++ newline) ],
       Ok response)
  end.

(** The branch of [else:]. *)
Definition update_branch (blueprint : pyval) (blueprint_name blueprint_stage : pystr)
    (schema : json) : list bda_action * pyresult pyval :=
  match subscript blueprint "blueprintArn" with
  | Raise e => ([], Raise e)
  | Ok arn =>
      let kwargs :=
        [ ("blueprintArn", arn);
          ("blueprintStage", VStr blueprint_stage);
          ("schema", VStr (json_dumps schema)) ] in
      match update_blueprint kwargs with
      | Raise e => ([UpdateBlueprint kwargs], Raise e)
      | Ok response =>
          ([ UpdateBlueprint kwargs;
             BdaPrint (lit "Found existing blueprint with name=" ++ blueprint_name
                       ++ lit ", updating Stage and Schema" ++ newline) ],
           Ok response)
      end
  end.

(** The whole cell: what it does, and the value it leaves in
    [blueprint_arn]. *)
Definition blueprint_cell (blueprint_name blueprint_type blueprint_stage : pystr)
    (schema : json) : list bda_action * pyresult pyval :=
  let listing := [ListBlueprints [("blueprintStageFilter", VStr (lit "ALL"))]] in
  match find_blueprint blueprint_name with
  | Raise e => (listing, Raise e)
  | Ok blueprint =>
      let '(actions, response) :=
        match blueprint with
        | Some found =>
            if val_truthy found
            then update_branch found blueprint_name blueprint_stage schema
            else create_branch blueprint_name blueprint_type blueprint_stage schema
        | None => create_branch blueprint_name blueprint_type blueprint_stage schema
        end in
      (listing ++ actions,
       do response <- response;
       do blueprint <- subscript response "blueprint";
       subscript blueprint "blueprintArn")
  end.

End Blueprint.

(** The calls of [create_blueprint] and [update_blueprint] in a list of
    actions. *)
Definition blueprint_writes (actions : list bda_action) : list bda_action :=
  omap (fun a => match a with
                 | CreateBlueprint _ | UpdateBlueprint _ => Some a
                 | _ => None
                 end) actions.

(** A listed blueprint that carries the name in ["blueprintName"]. *)
Definition named (blueprint_name : pystr) (blueprint : pyval) : Prop :=
  subscript blueprint "blueprintName" = Ok (VStr blueprint_name).

(** A listed blueprint, a dictionary as the service lists them, that does
    not. *)
Definition not_named (blueprint_name : pystr) (blueprint : pyval) : Prop :=
  (∃ members, blueprint = VDict members) ∧ ¬ named blueprint_name blueprint.

(** ** Notebook 03: the outputs of the job *)

(** [j[key]] for a string key and [j[0]], on a value read from JSON.  A
    dictionary read from JSON has no key [0]: the [KeyError] then carries
    that number, written here by its digits. *)
Definition json_subscript (j : json) (key : pystr) : pyresult json :=
  match j with
  | JObj members =>
      match lookup_member key members with
      | Some v => Ok v
      | None => Raise (KeyError key)
      end
  | _ => Raise TypeError
  end.

Definition json_first (j : json) : pyresult json :=
  match j with
  | JArr items => getitem items 0
  | JStr s => match s with c :: _ => Ok (JStr [c]) | [] => Raise IndexError end
  | JObj _ => Raise (KeyError (lit "0"))
  | _ => Raise TypeError
  end.

(** [job_metadata["output_metadata"][0]["segment_metadata"][0]["custom_output_path"]] *)
Definition custom_output_path (job_metadata : json) : pyresult json :=
  do output_metadata <- json_subscript job_metadata (lit "output_metadata");
  do first_output <- json_first output_metadata;
  do segment_metadata <- json_subscript first_output (lit "segment_metadata");
  do first_segment <- json_first segment_metadata;
  json_subscript first_segment (lit "custom_output_path").

(** [path.removeprefix(...)]: only a string has the method. *)
Definition str_receiver (path : json) (method : string) : pyresult pystr :=
  match path with
  | JStr s => Ok s
  | _ => Raise (AttributeError (type_name path) method)
  end.

Section JobOutputs.

Variable json_loads : pystr → pyresult json.
Variable container_repr : json → pystr.

(** [s3_client.get_object(Bucket=bucket, Key=key)["Body"].read()] *)
Variable get_object : pystr → pystr → pyresult (list byte).

(** The first three statements the two cells share: the parts of the URI,
    the object, its content as JSON. *)
Definition get_json (location : pystr) : list bda_action * pyresult json :=
  match get_object_args location with
  | Raise e => ([], Raise e)
  | Ok (bucket, key) =>
      ([GetObject bucket key],
       do data <- get_object bucket key;
       do text <- utf8_decode data;
       json_loads text)
  end.

(** The cell that reads the job metadata, and the value it leaves in
    [custom_output_path]. *)
Definition job_metadata_cell (job_metadata_s3_location : pystr)
  : list bda_action * pyresult json :=
  match get_json job_metadata_s3_location with
  | (actions, Raise e) => (actions, Raise e)
  | (actions, Ok job_metadata) =>
      (actions ++ [BdaPrint (py_str container_repr job_metadata ++ newline)],
       custom_output_path job_metadata)
  end.

(** The cell that reads the custom outputs and prints the inference
    result; its value is what it prints. *)
Definition custom_outputs_cell (custom_output_path : json)
  : list bda_action * pyresult json :=
  match str_receiver custom_output_path "removeprefix" with
  | Raise e => ([], Raise e)
  | Ok location =>
      match get_json location with
      | (actions, Raise e) => (actions, Raise e)
      | (actions, Ok custom_outputs) =>
          match json_subscript custom_outputs (lit "inference_result") with
          | Raise e => (actions, Raise e)
          | Ok inference_result =>
              (actions ++ [BdaPrint (py_str container_repr inference_result ++ newline)],
               Ok inference_result)
          end
      end
  end.

(** The two cells, one after the other. *)
Definition check_outputs (job_metadata_s3_location : pystr)
  : list bda_action * pyresult json :=
  match job_metadata_cell job_metadata_s3_location with
  | (actions, Raise e) => (actions, Raise e)
  | (actions, Ok path) =>
      let '(actions', result) := custom_outputs_cell path in
      (actions ++ actions', result)
  end.

End JobOutputs.

(** The objects a list of actions asks S3 for. *)
Definition object_reads (actions : list bda_action) : list (pystr * pystr) :=
  omap (fun a => match a with GetObject bucket key => Some (bucket, key) | _ => None end)
    actions.

(** ** Further recorded data *)



(** Two blueprints of the account, the second with the name of the
    notebook, and services that answer with the blueprint they were given. *)
Definition recorded_blueprints : list pyval :=
  [ VDict [ ("blueprintArn", VStr (lit "arn:aws:bedrock:us-west-2:123456789012:blueprint/b0"));
            ("blueprintName", VStr (lit "invoices")) ];
    VDict [ ("blueprintArn", VStr (lit "arn:aws:bedrock:us-west-2:123456789012:blueprint/b1"));
            ("blueprintName", VStr (lit "test-brand-new-blueprint")) ] ].

Definition recorded_list_blueprints (blueprints : list pyval)
    (kwargs : list (string * pyval)) : pyresult pyval :=
  Ok (VDict [ ("blueprints", VList blueprints) ]).

Definition recorded_create_blueprint (kwargs : list (string * pyval)) : pyresult pyval :=
  Ok (VDict [ ("blueprint",
               VDict [ ("blueprintArn",
                        VStr (lit "arn:aws:bedrock:us-west-2:123456789012:blueprint/b2")) ]) ]).

Definition recorded_update_blueprint (kwargs : list (string * pyval)) : pyresult pyval :=
  do arn <- subscript (VDict kwargs) "blueprintArn";
  Ok (VDict [ ("blueprint", VDict [ ("blueprintArn", arn) ]) ]).

(** The job metadata and the custom output of a job, and a bucket that
    holds them. *)
Definition recorded_job_metadata : json :=
  JObj [ (lit "job_id", JStr (lit "j1"));
         (lit "output_metadata",
          JArr [ JObj [ (lit "asset_id", JInt 0);
                        (lit "segment_metadata",
                         JArr [ JObj [ (lit "custom_output_status", JStr (lit "MATCH"));
                                       (lit "custom_output_path",
                                        JStr (lit "s3://workshop/bda-outputs/j1/0/custom_output/0/result.json")) ] ]) ] ]) ].

Definition recorded_custom_outputs : json :=
  JObj [ (lit "matched_blueprint", JObj [ (lit "name", JStr (lit "test-brand-new-blueprint")) ]);
         (lit "inference_result", JObj [ (lit "title", JStr (lit "Mistral 7B")) ]) ].

Definition recorded_get_object (bucket key : pystr) : pyresult (list byte) :=
  if bool_decide (bucket = lit "workshop") then
    if bool_decide (key = lit "bda-outputs/j1/job_metadata.json")
    then Ok (ascii_bytes (json_dumps recorded_job_metadata))
    else if bool_decide (key = lit "bda-outputs/j1/0/custom_output/0/result.json")
    then Ok (ascii_bytes (json_dumps recorded_custom_outputs))
    else Raise (ClientError (lit "NoSuchKey") (lit "The specified key does not exist."))
  else Raise (ClientError (lit "NoSuchBucket") (lit "The specified bucket does not exist.")).

Definition recorded_outputs_json_loads (text : pystr) : pyresult json :=
  match list_find (fun j => json_dumps j = text) [recorded_job_metadata; recorded_custom_outputs] with
  | Some (_, j) => Ok j
  | None => Raise JSONDecodeError
  end.

(** The globals of notebook 03 once the reader has bound the name the call
    asks for. *)
Definition repaired_globals : gmap string pyval :=
  <["default_profile_arn" :=
      VStr (lit "arn:aws:bedrock:us-west-2:123456789012:data-automation-profile/us.data-automation-v1")]>
    recorded_globals.

(* ===================================================================== *)
(** * Part II: properties                                                 *)
(* ===================================================================== *)

(** Goals [Forall P [x1; ...; xn]] over an explicit list, one goal per item. *)
Ltac forall_list :=
  repeat match goal with
         | |- Forall _ (_ :: _) => apply Forall_cons; split
         | |- Forall _ [] => apply Forall_nil_2
         end.

Section StrLemmas.
Implicit Types s t x : pystr.

Lemma startswith_app s t : startswith (s ++ t) s = true.
Proof.
  unfold startswith. apply bool_decide_eq_true. by rewrite take_app_length.
Qed.

Lemma startswith_prefix s x : startswith s x = true ↔ x `prefix_of` s.
Proof.
  unfold startswith. rewrite bool_decide_eq_true. split.
  - intros <-. apply prefix_take.
  - intros [k ->]. by rewrite take_app_length.
Qed.

Lemma endswith_suffix s x : endswith s x = true ↔ x `suffix_of` s.
Proof.
  unfold endswith. rewrite bool_decide_eq_true. split.
  - intros <-. apply suffix_drop.
  - intros [k ->]. rewrite length_app.
    replace (length k + length x - length x) with (length k) by lia.
    by rewrite drop_app_length.
Qed.

Lemma endswith_app s x : endswith (s ++ x) x = true.
Proof. apply endswith_suffix. by exists s. Qed.

Lemma removeprefix_app s t : removeprefix (s ++ t) s = t.
Proof.
  unfold removeprefix. rewrite startswith_app. by rewrite drop_app_length.
Qed.

Lemma removesuffix_app s x : removesuffix (s ++ x) x = s.
Proof.
  unfold removesuffix. rewrite endswith_app.
  destruct x as [|c x].
  - rewrite app_nil_r. done.
  - rewrite bool_decide_eq_true_2 by done. cbn [andb].
    rewrite length_app.
    replace (length s + length (c :: x) - length (c :: x)) with (length s) by lia.
    by rewrite take_app_length.
Qed.

Lemma removesuffix_absent s x : endswith s x = false → removesuffix s x = s.
Proof. unfold removesuffix. intros ->. by rewrite andb_false_r. Qed.

Lemma split_at_first_char c s t :
  c ∉ s → split_at_first [c] (s ++ c :: t) = Some (s, t).
Proof.
  induction s as [|a s IH]; intros Hc.
  - cbn [app split_at_first]. unfold startswith. cbn [length take drop].
    by rewrite bool_decide_eq_true_2.
  - apply not_elem_of_cons in Hc as [Hne Hc].
    cbn [app split_at_first]. unfold startswith. cbn [length take].
    rewrite bool_decide_eq_false_2 by congruence.
    by rewrite (IH Hc).
Qed.

Lemma split_at_first_none c s : c ∉ s → split_at_first [c] s = None.
Proof.
  induction s as [|a s IH]; intros Hc; [reflexivity|].
  apply not_elem_of_cons in Hc as [Hne Hc].
  cbn [split_at_first]. unfold startswith. cbn [length take].
  rewrite bool_decide_eq_false_2 by congruence.
  by rewrite (IH Hc).
Qed.
End StrLemmas.

Lemma contains_char_false (c : N) (s : pystr) : contains s [c] = false → c ∉ s.
Proof.
  intros Hnone Hin.
  apply list_elem_of_split_l in Hin as (s1 & s2 & -> & Hfresh).
  unfold contains in Hnone. by rewrite split_at_first_char in Hnone.
Qed.

Lemma contains_char_true (c : N) (s : pystr) : c ∈ s → contains s [c] = true.
Proof.
  intros Hin. destruct (contains s [c]) eqn:E; [done|].
  by apply contains_char_false in E.
Qed.

(** ** Output file names (notebook 01) *)

Section OutputFilenames.
Implicit Types key stem tail : pystr.

Lemma output_filename_pdf tail stem :
  output_filename tail (stem ++ dot_pdf) = stem ++ tail.
Proof. unfold output_filename. by rewrite removesuffix_app. Qed.

Lemma output_filename_other tail key :
  ¬ dot_pdf `suffix_of` key → output_filename tail key = key ++ tail.
Proof.
  intros Hno. unfold output_filename. rewrite removesuffix_absent; [done|].
  destruct (endswith key dot_pdf) eqn:E; [|done].
  by apply endswith_suffix in E.
Qed.

Lemma append_pdf_distinct key : key ≠ key ++ dot_pdf.
Proof.
  intros Heq. apply (f_equal length) in Heq.
  rewrite length_app in Heq. simpl in Heq. lia.
Qed.

End OutputFilenames.

(** C8, as amended.  For every listed key the local file name is the key
    without a trailing [.pdf], when it has one, followed by [_textract.txt]
    (Textractor cell) or [_bedrock.txt] (Bedrock cell); a key that does not
    end in [.pdf] keeps its whole name, so that such a key and the key
    obtained from it by appending [.pdf] are two distinct keys with one and
    the same output file name. *)
Theorem output_filename_strips_pdf_once (key : pystr) :
  (∀ stem, key = stem ++ dot_pdf →
     textract_output_filename key = stem ++ lit "_textract.txt"
     ∧ bedrock_output_filename key = stem ++ lit "_bedrock.txt")
  ∧ (¬ dot_pdf `suffix_of` key →
     textract_output_filename key = key ++ lit "_textract.txt"
     ∧ bedrock_output_filename key = key ++ lit "_bedrock.txt")
  ∧ (¬ dot_pdf `suffix_of` key →
     key ≠ key ++ dot_pdf
     ∧ textract_output_filename (key ++ dot_pdf) = textract_output_filename key
     ∧ bedrock_output_filename (key ++ dot_pdf) = bedrock_output_filename key).
Proof.
  unfold textract_output_filename, bedrock_output_filename.
  split; [|split].
  - intros stem ->. by rewrite !output_filename_pdf.
  - intros Hno. by rewrite !output_filename_other.
  - intros Hno. split; [apply append_pdf_distinct|].
    by rewrite !output_filename_pdf, !output_filename_other.
Qed.

(** The statement at the keys [report] and [report.pdf]. *)
Lemma output_filename_strips_pdf_once_witness :
  textract_output_filename (lit "report.pdf") = lit "report_textract.txt"
  ∧ bedrock_output_filename (lit "report") = lit "report_bedrock.txt"
  ∧ textract_output_filename (lit "report.pdf") = textract_output_filename (lit "report").
Proof.
  destruct (output_filename_strips_pdf_once (lit "report")) as (_ & Hother & Hsame).
  destruct (output_filename_strips_pdf_once (lit "report.pdf")) as (Hpdf & _ & _).
  assert (¬ dot_pdf `suffix_of` lit "report") as Hno.
  { intros Hs. apply endswith_suffix in Hs. vm_compute in Hs. discriminate Hs. }
  split; [|split].
  - apply (Hpdf (lit "report")). reflexivity.
  - apply (Hother Hno).
  - apply (Hsame Hno).
Defined.

(** The stripping happens once.  The keys [a.pdf] and [a.pdf.pdf] are two
    distinct keys that differ only by a trailing [.pdf], and their output
    files differ: [a_textract.txt] and [a.pdf_textract.txt]. *)
Lemma output_filename_double_pdf :
  lit "a.pdf.pdf" = lit "a.pdf" ++ lit ".pdf"
  ∧ lit "a.pdf.pdf" ≠ lit "a.pdf"
  ∧ textract_output_filename (lit "a.pdf") = lit "a_textract.txt"
  ∧ textract_output_filename (lit "a.pdf.pdf") = lit "a.pdf_textract.txt"
  ∧ textract_output_filename (lit "a.pdf.pdf") ≠ textract_output_filename (lit "a.pdf")
  ∧ bedrock_output_filename (lit "a.pdf.pdf") ≠ bedrock_output_filename (lit "a.pdf").
Proof. repeat split; try (vm_compute; reflexivity); vm_compute; discriminate. Qed.

(** ** S3 URIs (notebook 03) *)

Lemma s3_uri_parts_general (bucket key : pystr) :
  contains bucket slash = false →
  s3_uri_parts (s3_uri bucket key) = Ok [bucket; key].
Proof.
  intros Hbucket. apply contains_char_false in Hbucket.
  unfold s3_uri_parts, s3_uri. rewrite removeprefix_app.
  unfold split, slash. cbn [split_pieces app].
  by rewrite (split_at_first_char _ _ _ Hbucket).
Qed.



(** The arguments of [get_object] are then the bucket and the key. *)
Lemma get_object_args_s3_uri (bucket key : pystr) :
  contains bucket slash = false →
  get_object_args (s3_uri bucket key) = Ok (bucket, key).
Proof.
  intros Hbucket. unfold get_object_args.
  by rewrite s3_uri_parts_general.
Qed.

(** Without a [/] after the bucket there is no second part. *)
Lemma get_object_args_no_key : get_object_args (lit "s3://bucket") = Raise IndexError.
Proof. reflexivity. Qed.

(** ** The streamed answer (notebooks 01 and 02) *)

Section StreamProperties.
Variable json_loads : pystr → pyresult json.

Lemma truthy_well_formed_delta (delta : json) :
  delta_well_formed delta → truthy delta = true →
  ∃ members, delta = JObj members
    ∧ (lookup_member (lit "text") members = None
       ∨ lookup_member (lit "text") members = Some JNull
       ∨ ∃ s, lookup_member (lit "text") members = Some (JStr s)).
Proof.
  intros Hwf Htrue. destruct delta as [ |b|z|r|s|items|members];
    simpl in *; try congruence.
  exists members. split; [done|].
  destruct (lookup_member (lit "text") members) as [text|]; [|by left].
  right. destruct Hwf as [-> | [s ->]]; [by left|right; by exists s].
Qed.

(** The value of [text] at a well-formed event. *)
Lemma text_of_event_well_formed (ev : event) :
  event_well_formed json_loads ev →
  text_of_event json_loads ev
  = Ok (match event_delta json_loads ev with
        | None => None
        | Some delta =>
            match delta_text delta with
            | Some s => Some (JStr s)
            | None => Some JNull
            end
        end).
Proof.
  unfold text_of_event, event_well_formed, event_delta.
  destruct (chunk ev) as [[[data|]]|]; try done.
  intros (members & -> & Hdelta). cbn [bind py_in py_get].
  destruct (lookup_member (lit "delta") members) as [delta|] eqn:Hlookup.
  - rewrite bool_decide_eq_true_2 by (by eexists). cbn [default from_option id].
    destruct (truthy delta) eqn:Htruthy; [|done].
    destruct (truthy_well_formed_delta delta Hdelta Htruthy)
      as (fields & -> & [Habsent | [Hnull | [s Htext]]]);
      cbn [py_get bind delta_text].
    + by rewrite Habsent.
    + by rewrite Hnull.
    + by rewrite Htext.
  - rewrite bool_decide_eq_false_2; [done|]. by intros [? ?].
Qed.

Lemma on_event_well_formed (ev : event) (output : pystr) (w : world) :
  event_well_formed json_loads ev →
  on_event json_loads ev output w
  = step_of_delta (event_delta json_loads ev) output w.
Proof.
  intros Hwf. unfold on_event. rewrite (text_of_event_well_formed _ Hwf).
  unfold step_of_delta.
  destruct (event_delta json_loads ev) as [delta|]; [|done].
  destruct (delta_text delta) as [[|c s]|]; [|done|done].
  cbn [truthy]. rewrite bool_decide_eq_true_2 by done. by rewrite app_nil_r.
Qed.

Lemma expected_output_cons (ev : event) (stream : list event) :
  expected_output json_loads (ev :: stream) =
    match event_delta json_loads ev with
    | None => expected_output json_loads stream
    | Some delta =>
        match delta_text delta with
        | Some (c :: s) => (c :: s) ++ expected_output json_loads stream
        | _ => []
        end
    end.
Proof.
  unfold expected_output. cbn [omap list_omap].
  destruct (event_delta json_loads ev) as [delta|]; [|done].
  cbn [fmap list_fmap texts_until_stop].
  by destruct (delta_text delta) as [[|c s]|].
Qed.

Lemma for_events_well_formed (stream : list event) (output : pystr) (w : world) :
  Forall (event_well_formed json_loads) stream →
  ∃ w', for_events json_loads stream output w
        = (output ++ expected_output json_loads stream, w', Ok ()).
Proof.
  intros Hwf. revert output w.
  induction Hwf as [|ev stream Hevent _ IH]; intros output w.
  - exists w. cbn. by rewrite app_nil_r.
  - cbn [for_events]. rewrite (on_event_well_formed _ _ _ Hevent).
    rewrite expected_output_cons. unfold step_of_delta.
    destruct (event_delta json_loads ev) as [delta|]; [|apply IH].
    destruct (delta_text delta) as [[|c s]|].
    + eexists. by rewrite app_nil_r.
    + destruct (IH (output ++ c :: s) (print (c :: s) [] w)) as [w' ->].
      exists w'. by rewrite <- app_assoc.
    + eexists. by rewrite app_nil_r.
Qed.

(** Whatever the events are, a pass that ends without an exception has
    done what the delta of its event says. *)
Lemma text_of_event_ok (ev : event) (text : option json) :
  text_of_event json_loads ev = Ok text →
  match event_delta json_loads ev with
  | None => text = None
  | Some delta =>
      ∃ value, text = Some value
        ∧ match delta_text delta with
          | Some s => value = JStr s
          | None => ∀ s, value ≠ JStr s
          end
  end.
Proof.
  unfold text_of_event, event_delta.
  destruct (chunk ev) as [[[data|]]|]; [|by intros [= <-]..].
  destruct (chunk_obj_of json_loads data) as [chunk_obj|e]; [|done].
  cbn [bind].
  destruct chunk_obj as [ |b|z|r|s|items|members]; cbn [py_in bind]; try done.
  - destruct (contains s (lit "delta")); [done|by intros [= <-]].
  - destruct (existsb (is_str (lit "delta")) items); [done|by intros [= <-]].
  - cbn [py_get]. destruct (lookup_member (lit "delta") members) as [delta|].
    + rewrite bool_decide_eq_true_2 by (by eexists). cbn [default from_option id bind].
      destruct (truthy delta); [|by intros [= <-]].
      destruct delta as [ |b|z|r|s|items|fields]; cbn [py_get bind]; try done.
      intros [= <-]. eexists. split; [reflexivity|]. cbn [delta_text].
      destruct (lookup_member (lit "text") fields) as [[ |b|z|r|s|items|inner]|];
        cbn [default from_option id]; done.
    + rewrite bool_decide_eq_false_2 by (by intros [? ?]). by intros [= <-].
Qed.

Lemma on_event_ok (ev : event) (output output' : pystr) (w w' : world) (next : flow) :
  on_event json_loads ev output w = (output', w', Ok next) →
  step_of_delta (event_delta json_loads ev) output w = (output', w', Ok next).
Proof.
  unfold on_event.
  destruct (text_of_event json_loads ev) as [text|e] eqn:Htext; [|done].
  apply text_of_event_ok in Htext. unfold step_of_delta.
  destruct (event_delta json_loads ev) as [delta|].
  - destruct Htext as (value & -> & Hvalue).
    destruct (delta_text delta) as [s|].
    + subst value. destruct s as [|c s]; cbn [truthy].
      * rewrite bool_decide_eq_true_2 by done. by rewrite app_nil_r.
      * by rewrite bool_decide_eq_false_2.
    + destruct value as [ |b|z|r|s|items|members]; try done.
      by destruct (Hvalue s).
  - by subst text.
Qed.

Lemma expected_output_app_step (ev : event) (stream : list event) (output : pystr) :
  output ++ expected_output json_loads (ev :: stream)
  = match step_of_delta (event_delta json_loads ev) output empty_world with
    | (output', _, Ok Continue) => output' ++ expected_output json_loads stream
    | (output', _, _) => output'
    end.
Proof.
  rewrite expected_output_cons. unfold step_of_delta.
  destruct (event_delta json_loads ev) as [delta|]; [|done].
  destruct (delta_text delta) as [[|c s]|]; rewrite ?app_nil_r; try done.
  by rewrite <- app_assoc.
Qed.

Lemma step_of_delta_world (delta : option json) (output : pystr) (w w0 : world) :
  (step_of_delta delta output w).1.1 = (step_of_delta delta output w0).1.1
  ∧ (step_of_delta delta output w).2 = (step_of_delta delta output w0).2.
Proof.
  unfold step_of_delta. destruct delta as [delta|]; [|done].
  by destruct (delta_text delta) as [[|c s]|].
Qed.

Lemma for_events_ok (stream : list event) (output output' : pystr) (w w' : world) :
  for_events json_loads stream output w = (output', w', Ok ()) →
  output' = output ++ expected_output json_loads stream.
Proof.
  revert output w. induction stream as [|ev stream IH]; intros output w.
  - cbn. intros [= <- <-]. by rewrite app_nil_r.
  - cbn [for_events].
    destruct (on_event json_loads ev output w) as [[output1 w1] [next|e]] eqn:Hstep;
      [|done].
    apply on_event_ok in Hstep.
    rewrite expected_output_app_step.
    destruct (step_of_delta_world (event_delta json_loads ev) output w empty_world)
      as [Houtput Hnext].
    rewrite Hstep in Houtput, Hnext. cbn [fst snd] in Houtput, Hnext.
    destruct (step_of_delta (event_delta json_loads ev) output empty_world)
      as [[output2 w2] r2]. cbn [fst snd] in Houtput, Hnext. subst output2 r2.
    destruct next.
    + intros Hrest. by apply IH in Hrest.
    + by intros [= <- <-].
Qed.

(** Outside that shape: a ["text"] that is neither a string nor [null]
    stops the cell with a [TypeError] at [output += text]. *)
Lemma on_event_text_not_string (ev : event) (output : pystr) (w : world) (text : json) :
  text_of_event json_loads ev = Ok (Some text) →
  text ≠ JNull → (∀ s, text ≠ JStr s) →
  on_event json_loads ev output w = (output, w, Raise TypeError).
Proof.
  intros Htext Hnull Hstr. unfold on_event. rewrite Htext.
  destruct text as [ |b|z|r|s|items|members]; try done. by destruct (Hstr s).
Qed.

(** Events that carry no chunk, an empty chunk, or a chunk without a truthy
    ["delta"] leave the output as it is and do not end the loop. *)
Lemma for_events_skip (ev : event) (stream : list event) (output : pystr) (w : world) :
  event_well_formed json_loads ev → event_delta json_loads ev = None →
  for_events json_loads (ev :: stream) output w = for_events json_loads stream output w.
Proof.
  intros Hwf Hnone. cbn [for_events].
  by rewrite (on_event_well_formed _ _ _ Hwf), Hnone.
Qed.

(** A delta whose ["text"] is absent or empty ends the loop: the events
    after it are not read. *)
Lemma for_events_stop (ev : event) (stream : list event) (output : pystr) (w : world)
    (delta : json) :
  event_well_formed json_loads ev → event_delta json_loads ev = Some delta →
  delta_text delta = None ∨ delta_text delta = Some [] →
  ∃ w', for_events json_loads (ev :: stream) output w = (output, w', Ok ()).
Proof.
  intros Hwf Hdelta Hstop. cbn [for_events].
  rewrite (on_event_well_formed _ _ _ Hwf), Hdelta. unfold step_of_delta.
  destruct Hstop as [-> | ->]; eauto.
Qed.

End StreamProperties.

(** C1.  For every sequence of events of the response stream, the string
    accumulated in [output] is the concatenation, in stream order, of the
    ["text"] fields of the ["delta"] objects of the events that carry a
    non-empty chunk, up to the first delta whose ["text"] is absent or the
    empty string, where the loop ends; events without a chunk and chunks
    without a truthy ["delta"] add nothing and do not end it.  This holds
    of every run of the loop that ends without an exception, and the loop
    ends so on every stream whose events have the shape the messages API
    gives them ([event_well_formed]). *)
Theorem accumulated_output_is_concatenation
    (json_loads : pystr → pyresult json) (stream : list event) (w : world) :
  (∀ output w', for_events json_loads stream [] w = (output, w', Ok ()) →
     output = expected_output json_loads stream)
  ∧ (Forall (event_well_formed json_loads) stream →
     ∃ w', for_events json_loads stream [] w
           = (expected_output json_loads stream, w', Ok ())).
Proof.
  split.
  - intros output w' Hrun. by apply for_events_ok in Hrun.
  - intros Hwf. by apply (for_events_well_formed json_loads stream [] w).
Qed.

(** The recorded answer is accumulated up to the [message_delta] event,
    whose delta has no ["text"]. *)
Lemma accumulated_output_is_concatenation_witness :
  Forall (event_well_formed recorded_json_loads) recorded_stream
  ∧ expected_output recorded_json_loads recorded_stream = lit "Amazon Web Services"
  ∧ ∃ w', for_events recorded_json_loads recorded_stream [] empty_world
          = (lit "Amazon Web Services", w', Ok ()).
Proof.
  assert (Forall (event_well_formed recorded_json_loads) recorded_stream) as Hwf.
  { unfold recorded_stream, recorded_payloads. cbn [fmap list_fmap].
    forall_list; [exact I|..].
    all: unfold event_well_formed, chunk_event; cbn [chunk bytes].
    all: eexists; split; [vm_compute; reflexivity|vm_compute; eauto]. }
  assert (expected_output recorded_json_loads recorded_stream
          = lit "Amazon Web Services") as Hexpected by (vm_compute; reflexivity).
  split; [exact Hwf|]. split; [exact Hexpected|].
  destruct (proj2 (accumulated_output_is_concatenation recorded_json_loads
                     recorded_stream empty_world) Hwf) as [w' Hrun].
  exists w'. rewrite Hrun, Hexpected. reflexivity.
Defined.

(** In the cells of notebooks 01 and 02 the variable [output] is left with
    that string. *)
Lemma try_block_output
    (json_loads : pystr → pyresult json)
    (invoke_model_with_response_stream : request → pyresult response)
    (container_repr : json → pystr)
    (nb : notebook) (req : request) (w : world) (stream : list event) :
  nb ≠ Notebook00 →
  invoke_model_with_response_stream req = Ok {| response_body := Some stream |} →
  Forall (event_well_formed json_loads) stream →
  ∃ w', try_block json_loads invoke_model_with_response_stream container_repr nb req w
        = (Some (JStr (expected_output json_loads stream)), w', Ok ()).
Proof.
  intros Hnb Hresponse Hwf. unfold try_block. rewrite Hresponse. cbn [response_body].
  destruct (for_events_well_formed json_loads stream [] (log (InvokeModel req) w) Hwf)
    as [w' Hloop].
  destruct nb; [done| |]; rewrite Hloop; by eexists.
Qed.

(** The cell of notebook 01 on the recorded answer. *)
Lemma invoke_cell_recorded :
  (invoke_cell recorded_json_loads recorded_service no_repr Notebook01 recorded_request
     empty_world).1.1
  = Some (JStr (lit "Amazon Web Services"))
  ∧ trace (invoke_cell recorded_json_loads recorded_service no_repr Notebook01
             recorded_request empty_world).1.2
    = [ InvokeModel recorded_request;
        Print (lit "Amazon"); Print (lit " Web Services"); Print newline ].
Proof. split; vm_compute; reflexivity. Qed.

(** ** The single [except] clause (notebooks 00, 01 and 02) *)

Section ErrorPath.
Variable json_loads : pystr → pyresult json.
Variable invoke_model_with_response_stream : request → pyresult response.
Variable container_repr : json → pystr.

(** Printing is neither a call of the service nor a write. *)
Lemma print_quiet (text line_end : pystr) (w w0 : world) :
  invocations (trace w) = invocations (trace w0) →
  invocations (trace (print text line_end w)) = invocations (trace w0).
Proof.
  intros <-. unfold print, log, invocations. cbn [trace]. rewrite omap_app. cbn.
  by rewrite app_nil_r.
Qed.

(** The loops print and do nothing else to the world. *)
Lemma on_event_quiet (ev : event) (output : pystr) (w : world) :
  invocations (trace (on_event json_loads ev output w).1.2) = invocations (trace w).
Proof.
  unfold on_event. repeat case_match; cbn [fst snd]; try done.
  all: by apply print_quiet.
Qed.

Lemma for_events_quiet (stream : list event) (output : pystr) (w : world) :
  invocations (trace (for_events json_loads stream output w).1.2) = invocations (trace w).
Proof.
  revert output w. induction stream as [|ev stream IH]; intros output w; [done|].
  cbn [for_events].
  pose proof (on_event_quiet ev output w) as Hstep.
  destruct (on_event json_loads ev output w) as [[output' w'] [[]|e]];
    cbn [fst snd] in *; try done.
  by rewrite IH.
Qed.

Lemma on_event_00_quiet (ev : event) (w : world) :
  invocations (trace (on_event_00 json_loads container_repr ev w).1) = invocations (trace w).
Proof.
  unfold on_event_00. repeat case_match; cbn [fst snd]; try done.
  all: by apply print_quiet.
Qed.

Lemma for_events_00_quiet (stream : list event) (w : world) :
  invocations (trace (for_events_00 json_loads container_repr stream w).1)
  = invocations (trace w).
Proof.
  revert w. induction stream as [|ev stream IH]; intros w; [done|].
  cbn [for_events_00].
  pose proof (on_event_00_quiet ev w) as Hstep.
  destruct (on_event_00 json_loads container_repr ev w) as [w' [[]|e]];
    cbn [fst snd] in *; try done.
  by rewrite IH.
Qed.

Lemma invocations_log_invoke (req : request) (w : world) :
  invocations (trace (log (InvokeModel req) w)) = invocations (trace w) ++ [req].
Proof. unfold log, invocations. cbn [trace]. by rewrite omap_app. Qed.

Lemma try_block_invokes_once (nb : notebook) (req : request) (w : world) :
  invocations
    (trace (try_block json_loads invoke_model_with_response_stream container_repr
              nb req w).1.2)
  = invocations (trace w) ++ [req].
Proof.
  rewrite <- invocations_log_invoke. unfold try_block.
  destruct (invoke_model_with_response_stream req) as [[[stream|]]|e];
    cbn [response_body fst snd]; [| |done].
  - destruct nb.
    + pose proof (for_events_00_quiet stream (log (InvokeModel req) w)) as Hquiet.
      by destruct (for_events_00 json_loads container_repr stream (log (InvokeModel req) w)).
    + pose proof (for_events_quiet stream [] (log (InvokeModel req) w)) as Hquiet.
      destruct (for_events json_loads stream [] (log (InvokeModel req) w))
        as [[output w'] [[]|e]]; cbn [fst snd] in *; [by apply print_quiet|done].
    + pose proof (for_events_quiet stream [] (log (InvokeModel req) w)) as Hquiet.
      destruct (for_events json_loads stream [] (log (InvokeModel req) w))
        as [[output w'] [[]|e]]; cbn [fst snd] in *; [by apply print_quiet|done].
  - destruct nb; cbn [fst snd]; try done. by apply print_quiet.
Qed.

(** An exception of the service leaves the [try] block as it is, with
    [output] unassigned. *)
Lemma try_block_service_raises (nb : notebook) (req : request) (w : world) (e : exn) :
  invoke_model_with_response_stream req = Raise e →
  try_block json_loads invoke_model_with_response_stream container_repr nb req w
  = (None, log (InvokeModel req) w, Raise e).
Proof. intros Hraise. unfold try_block. by rewrite Hraise. Qed.

Lemma except_clause_invocations (nb : notebook) (error : exn) (w : world) :
  invocations (trace (except_clause nb error w).1) = invocations (trace w).
Proof.
  unfold except_clause. destruct error; try done.
  case_bool_decide; [|done]. cbn [fst]. by apply print_quiet.
Qed.

(** The clause catches client errors and nothing else; of those it keeps
    for itself the ones whose code is [AccessDeniedException]. *)
Lemma except_clause_access_denied (nb : notebook) (message : pystr) (w : world) :
  except_clause nb (ClientError access_denied message) w
  = (print (hint nb message) newline w, Handled).
Proof. unfold except_clause. by rewrite bool_decide_eq_true_2. Qed.

Lemma except_clause_other_code (nb : notebook) (code message : pystr) (w : world) :
  code ≠ access_denied →
  except_clause nb (ClientError code message) w = (w, Reraised (ClientError code message)).
Proof. intros Hne. unfold except_clause. by rewrite bool_decide_eq_false_2. Qed.

Lemma except_clause_other_exception (nb : notebook) (error : exn) (w : world) :
  (∀ code message, error ≠ ClientError code message) →
  except_clause nb error w = (w, Uncaught error).
Proof. intros Hne. destruct error; try done. by destruct (Hne code message). Qed.

End ErrorPath.

(** C2.  The model-invocation cell has one error path.  A [ClientError]
    whose code is the string [AccessDeniedException] is caught and the
    remediation hint is printed: the message of the error on a red
    background, the line that points to the resources, and the addresses of
    the two pages of the documentation; after that the cell ends normally.
    Every other [ClientError] is raised again; every other exception leaves
    the cell uncaught; and no exception but the first kind is swallowed.
    Whatever happens, the streaming API is called once, never a second
    time. *)
Theorem invocation_has_one_error_path
    (json_loads : pystr → pyresult json)
    (invoke_model_with_response_stream : request → pyresult response)
    (container_repr : json → pystr)
    (nb : notebook) (req : request) (w : world) :
  let attempt :=
    try_block json_loads invoke_model_with_response_stream container_repr nb req w in
  let cell :=
    invoke_cell json_loads invoke_model_with_response_stream container_repr nb req w in
  invocations (trace cell.1.2) = invocations (trace w) ++ [req]
  ∧ (∀ message,
       attempt.2 = Raise (ClientError (lit "AccessDeniedException") message) →
       cell.2 = Ok ()
       ∧ trace cell.1.2
         = trace attempt.1.2
           ++ [ Print
                  ([27%N] ++ lit "[41m" ++ message
                   ++ replicate 16 32%N ++ [10%N]
                   ++ match nb with
                      | Notebook01 =>
                          lit "To troubleshoot this issue please refer to the following resources."
                      | _ =>
                          lit "To troubeshoot this issue please refer to the following resources."
                      end
                   ++ replicate 16 32%N ++ [10%N]
                   ++ lit "https://docs.aws.amazon.com/IAM/latest/UserGuide/troubleshoot_access-denied.html"
                   ++ replicate 16 32%N ++ [10%N]
                   ++ lit "https://docs.aws.amazon.com/bedrock/latest/userguide/security-iam.html"
                   ++ [27%N] ++ lit "[0m" ++ [10%N]
                   ++ [10%N]) ])
  ∧ (∀ code message, attempt.2 = Raise (ClientError code message) →
       code ≠ lit "AccessDeniedException" →
       cell.2 = Raise (ClientError code message) ∧ cell.1.2 = attempt.1.2)
  ∧ (∀ error, attempt.2 = Raise error →
       (∀ code message, error ≠ ClientError code message) →
       cell.2 = Raise error ∧ cell.1.2 = attempt.1.2)
  ∧ (attempt.2 = Ok () → cell.2 = Ok () ∧ cell.1.2 = attempt.1.2)
  ∧ (∀ error, attempt.2 = Raise error → cell.2 = Ok () →
       ∃ message, error = ClientError (lit "AccessDeniedException") message).
Proof.
  intros attempt cell.
  assert (lit "AccessDeniedException" = access_denied) as Hcode by reflexivity.
  rewrite !Hcode.
  pose proof (try_block_invokes_once json_loads invoke_model_with_response_stream
                container_repr nb req w) as Honce.
  fold attempt in Honce. subst cell. unfold invoke_cell. fold attempt.
  destruct attempt as [[output w'] [[]|error]]; cbn [fst snd] in *.
  - repeat split; try done.
  - pose proof (except_clause_invocations nb error w') as Hsame.
    split; [|split; [|split; [|split; [|split]]]].
    + destruct (except_clause nb error w') as [w'' d]. cbn [fst snd] in *. congruence.
    + intros message [= ->]. rewrite except_clause_access_denied.
      cbn [fst snd outcome]. split; [done|].
      unfold print, log. cbn [trace]. do 3 f_equal.
      unfold hint, blanks, newline. destruct nb; by rewrite <- !app_assoc.
    + intros code message [= ->] Hne. by rewrite except_clause_other_code.
    + intros error' [= <-] Hne. by rewrite except_clause_other_exception.
    + done.
    + intros error' [= <-]. unfold except_clause.
      destruct error as [code message| | | | | | | | |]; try done.
      case_bool_decide as Hcode'; [|done]. subst code. by exists message.
Qed.

(** A caller the service refuses with [AccessDeniedException] sees the hint
    and the cell ends normally; a throttled one sees the exception; either
    way the service was called once. *)
Lemma invocation_has_one_error_path_witness :
  (invoke_cell recorded_json_loads
     (fun _ => Raise (ClientError (lit "AccessDeniedException")
                                  (lit "You don't have access to the model.")))
     no_repr Notebook01 recorded_request empty_world).2
  = Ok ()
  ∧ trace (invoke_cell recorded_json_loads
             (fun _ => Raise (ClientError (lit "AccessDeniedException")
                                          (lit "You don't have access to the model.")))
             no_repr Notebook01 recorded_request empty_world).1.2
    = [ InvokeModel recorded_request;
        Print ([27%N] ++ lit "[41mYou don't have access to the model."
               ++ replicate 16 32%N ++ [10%N]
               ++ lit "To troubleshoot this issue please refer to the following resources."
               ++ replicate 16 32%N ++ [10%N]
               ++ lit "https://docs.aws.amazon.com/IAM/latest/UserGuide/troubleshoot_access-denied.html"
               ++ replicate 16 32%N ++ [10%N]
               ++ lit "https://docs.aws.amazon.com/bedrock/latest/userguide/security-iam.html"
               ++ [27%N] ++ lit "[0m" ++ [10%N]
               ++ [10%N]) ]
  ∧ (invoke_cell recorded_json_loads throttling_service no_repr Notebook01 recorded_request
       empty_world).2
    = Raise (ClientError (lit "ThrottlingException") (lit "Too many requests.")).
Proof.
  destruct (invocation_has_one_error_path recorded_json_loads
              (fun _ => Raise (ClientError (lit "AccessDeniedException")
                                           (lit "You don't have access to the model.")))
              no_repr Notebook01 recorded_request empty_world) as (_ & Hdenied & _).
  destruct (Hdenied (lit "You don't have access to the model.") eq_refl)
    as [Hok Htrace].
  destruct (invocation_has_one_error_path recorded_json_loads throttling_service no_repr
              Notebook01 recorded_request empty_world) as (_ & _ & Hother & _).
  destruct (Hother (lit "ThrottlingException") (lit "Too many requests.") eq_refl)
    as [Hraise _]; [vm_compute; discriminate|].
  split; [exact Hok|]. split; [|exact Hraise].
  rewrite Htrace. vm_compute. reflexivity.
Defined.

(** ** The Textractor loop (notebook 01) *)

(** The listing cell prints the keys in the order of the listing. *)
Lemma print_keys_trace (objects : list s3_object) (w : world) :
  trace (print_keys objects w)
  = trace w ++ ((fun obj => Print (Key obj ++ newline)) <$> objects)
  ∧ files (print_keys objects w) = files w.
Proof.
  unfold print_keys. revert w.
  induction objects as [|obj objects IH]; intros w; cbn [foldl fmap list_fmap].
  - by rewrite app_nil_r.
  - destruct (IH (print (Key obj) newline w)) as [-> ->].
    unfold print, log. cbn [trace files]. by rewrite <- app_assoc.
Qed.

Section TextractorProperties.
Variable s3_bucket : pystr.
Variable task1 : pystr → pyresult pyobj.

Lemma writes_app (actions actions' : list action) :
  writes (actions ++ actions') = writes actions ++ writes actions'.
Proof. unfold writes. apply omap_app. Qed.

Lemma process_object_document (obj : s3_object) (w : world) :
  produces_document s3_bucket task1 obj →
  ∃ w', process_object s3_bucket task1 obj w = (w', Ok ())
    ∧ trace w' = trace w ++ object_actions obj (document_text s3_bucket task1 obj)
    ∧ files w' = <[output_file obj := document_text s3_bucket task1 obj]> (files w).
Proof.
  intros [text Htask]. unfold process_object, document_text. rewrite Htask.
  cbn [get_text]. eexists. split; [reflexivity|].
  unfold print, log, write_text, object_actions, output_file. cbn [trace files].
  split; [|done]. by rewrite <- !app_assoc.
Qed.

Lemma textractor_loop_documents (objects : list s3_object) (w : world) :
  Forall (produces_document s3_bucket task1) objects →
  ∃ w', textractor_loop s3_bucket task1 objects w = (w', Ok ())
    ∧ trace w' = trace w
        ++ loop_actions s3_bucket task1 objects
    ∧ files w' = foldl (fun store obj =>
                          <[output_file obj := document_text s3_bucket task1 obj]> store)
                   (files w) objects.
Proof.
  intros Hdocs. revert w.
  induction Hdocs as [|obj objects Hobj _ IH]; intros w.
  - exists w. cbn. by rewrite app_nil_r.
  - destruct (process_object_document obj w Hobj) as (w1 & Hrun & Htrace & Hfiles).
    destruct (IH w1) as (w' & Hloop & Htrace' & Hfiles').
    exists w'. cbn [textractor_loop]. rewrite Hrun. split; [exact Hloop|].
    split.
    + rewrite Htrace', Htrace. cbn [loop_actions]. by rewrite <- !app_assoc.
    + by rewrite Hfiles', Hfiles.
Qed.

Lemma writes_object_actions (objects : list s3_object) :
  writes (loop_actions s3_bucket task1 objects)
  = (fun obj => (output_file obj, document_text s3_bucket task1 obj)) <$> objects.
Proof.
  induction objects as [|obj objects IH]; [done|].
  cbn [loop_actions]. rewrite writes_app, IH. reflexivity.
Qed.




End TextractorProperties.



(** ** The file store and the files of the notebook *)



Lemma contains_char (c : N) (s : pystr) : contains s [c] = false ↔ c ∉ s.
Proof.
  split; [apply contains_char_false|].
  intros Hc. unfold contains. by rewrite split_at_first_none.
Qed.

Lemma startswith_slash (s : pystr) :
  startswith s slash = match s with c :: _ => bool_decide (c = 47%N) | [] => false end.
Proof.
  unfold startswith, slash. destruct s as [|c s]; [done|].
  cbn [length take]. apply bool_decide_ext. split; [by intros [= ->]|by intros ->].
Qed.

Lemma output_filename_starts (tail key : pystr) :
  startswith tail slash = false →
  startswith (output_filename tail key) slash = startswith key slash.
Proof.
  intros Htail. unfold output_filename.
  destruct (endswith key dot_pdf) eqn:Hpdf.
  - apply endswith_suffix in Hpdf as [stem ->]. rewrite removesuffix_app.
    destruct stem as [|c stem]; [|by rewrite !startswith_slash].
    cbn [app]. rewrite Htail. reflexivity.
  - rewrite removesuffix_absent by done.
    destruct key as [|c key]; [|by rewrite !startswith_slash].
    cbn [app]. by rewrite Htail.
Qed.

Lemma os_path_join_output_path (name : pystr) :
  os_path_join output_path name
  = if startswith name slash then name else lit "processed-files/" ++ name.
Proof.
  unfold os_path_join. change [47%N] with slash.
  destruct (startswith name slash); [done|].
  assert (bool_decide (output_path = []) || endswith output_path slash = false) as ->
    by (vm_compute; reflexivity).
  reflexivity.
Qed.



Section FileStore.
Context {A : Type} (name : A → pystr) (content : A → pystr).



End FileStore.








Lemma loop_with_documents_in_order
    (s3_bucket : pystr) (task1 : pystr → pyresult pyobj)
    (objects : list s3_object) (w : world) :
  Forall (produces_document s3_bucket task1) objects →
  ∃ w', textractor_loop s3_bucket task1 objects w = (w', Ok ())
    ∧ trace w' = trace w ++ loop_actions s3_bucket task1 objects
    ∧ writes (trace w') = writes (trace w)
        ++ ((fun obj => (output_file obj, document_text s3_bucket task1 obj)) <$> objects).
Proof.
  intros Hdocs.
  destruct (textractor_loop_documents s3_bucket task1 objects w Hdocs)
    as (w' & Hloop & Htrace & _).
  exists w'. split; [exact Hloop|]. split; [exact Htrace|].
  rewrite Htrace, writes_app. f_equal. apply writes_object_actions.
Qed.




(** ** Pages of a PDF as base64 strings (notebook 01) *)

Lemma alphabet_ascii (b : byte) : In b (Base64.pad :: Base64.alphabet) → is_ascii b.
Proof.
  intros Hin.
  assert (forallb (fun b => (Byte.to_N b <? 128)%N) (Base64.pad :: Base64.alphabet) = true)
    as Hall by (vm_compute; reflexivity).
  apply N.ltb_lt. revert b Hin. by apply forallb_forall.
Qed.

Lemma pad_ascii : is_ascii Base64.pad.
Proof. apply alphabet_ascii. by left. Qed.

Lemma char_ascii (i : N) : is_ascii (Base64.char i).
Proof.
  unfold Base64.char.
  destruct (nth_in_or_default (N.to_nat i) Base64.alphabet Base64.pad) as [Hin | ->].
  - apply alphabet_ascii. by right.
  - apply pad_ascii.
Qed.

(** Induction on a list of bytes in groups of three, as [b64encode] reads it. *)
Lemma triples_ind (P : list byte → Prop) :
  P [] → (∀ a, P [a]) → (∀ a b, P [a; b]) →
  (∀ a b c rest, P rest → P (a :: b :: c :: rest)) →
  ∀ bs, P bs.
Proof.
  intros Hnil Hone Htwo Hstep.
  refine (fix go bs := match bs with
                       | [] => Hnil
                       | [a] => Hone a
                       | [a; b] => Htwo a b
                       | a :: b :: c :: rest => Hstep a b c rest (go rest)
                       end).
Qed.

Lemma b64encode_ascii (bs : list byte) : Forall is_ascii (Base64.b64encode bs).
Proof.
  induction bs as [|a|a b|a b c rest IH] using triples_ind;
    cbn [Base64.b64encode]; forall_list;
    try apply char_ascii; try apply pad_ascii.
  exact IH.
Qed.

Lemma utf8_decode_ascii (bs : list byte) :
  Forall is_ascii bs → utf8_decode bs = Ok (Byte.to_N <$> bs).
Proof.
  induction 1 as [|b bs Hb _ IH]; [reflexivity|].
  cbn [utf8_decode]. apply N.ltb_lt in Hb. rewrite Hb, IH. reflexivity.
Qed.

(** The string of one page. *)
Lemma page_string {image : Type} (jpeg : image → list byte) (page : image) :
  utf8_decode (Base64.b64encode (jpeg page)) = Ok (Byte.to_N <$> Base64.b64encode (jpeg page)).
Proof. apply utf8_decode_ascii, b64encode_ascii. Qed.

(** Saving into a buffer leaves the disk alone; saving under a file name
    would not. *)
Lemma save_buffer {image binary_files : Type} (jpeg : image → list byte)
    (write_file : binary_files → pystr → list byte → binary_files)
    (page : image) (content : list byte) (disk : binary_files) :
  save jpeg write_file page (Buffer content) disk = (disk, Buffer (content ++ jpeg page)).
Proof. reflexivity. Qed.

Lemma save_filename {image binary_files : Type} (jpeg : image → list byte)
    (write_file : binary_files → pystr → list byte → binary_files)
    (page : image) (path : pystr) (disk : binary_files) :
  (save jpeg write_file page (Filename path) disk).1 = write_file disk path (jpeg page).
Proof. reflexivity. Qed.

Lemma encode_images_all {image binary_files : Type} (jpeg : image → list byte)
    (write_file : binary_files → pystr → list byte → binary_files)
    (images : list image) (base64_img_strs : list pystr) (disk : binary_files) :
  encode_images jpeg write_file images base64_img_strs disk
  = (disk,
     Ok (base64_img_strs
         ++ ((fun page => Byte.to_N <$> Base64.b64encode (jpeg page)) <$> images))).
Proof.
  revert base64_img_strs.
  induction images as [|page images IH]; intros base64_img_strs.
  - cbn. by rewrite app_nil_r.
  - cbn [encode_images]. unfold BytesIO. rewrite save_buffer. cbn [getvalue bind app].
    rewrite page_string, IH. cbn [fmap list_fmap]. by rewrite <- app_assoc.
Qed.

(** C6.  For every PDF that [convert_from_path] turns into [n] page images,
    [get_base64_encoded_images_from_pdf] returns a list of [n] strings in
    page order, the i-th being the UTF-8 decoding of the base64 encoding of
    the JPEG bytes of page i, and it leaves the disk as it found it: no image
    file is written and the PDF is not changed. *)
Theorem base64_images_of_pdf_pages
    {image binary_files : Type}
    (convert_from_path : binary_files → pystr → pyresult (list image))
    (jpeg : image → list byte)
    (write_file : binary_files → pystr → list byte → binary_files)
    (disk : binary_files) (pdf_file_path : pystr) (images : list image) (n : nat) :
  convert_from_path disk pdf_file_path = Ok images →
  length images = n →
  ∃ base64_img_strs,
    get_base64_encoded_images_from_pdf convert_from_path jpeg write_file disk pdf_file_path
    = (disk, Ok base64_img_strs)
    ∧ length base64_img_strs = n
    ∧ ∀ i page, images !! i = Some page →
        ∃ base64_string,
          base64_img_strs !! i = Some base64_string
          ∧ utf8_decode (Base64.b64encode (jpeg page)) = Ok base64_string.
Proof.
  intros Hconvert Hn. unfold get_base64_encoded_images_from_pdf.
  rewrite Hconvert, encode_images_all. cbn [app].
  eexists. split; [reflexivity|]. split.
  - by rewrite length_fmap.
  - intros i page Hpage. eexists. split; [|apply page_string].
    by rewrite list_lookup_fmap, Hpage.
Qed.

Lemma base64_images_of_pdf_pages_witness :
  get_base64_encoded_images_from_pdf recorded_convert_from_path recorded_jpeg
    recorded_write_file recorded_disk (lit "demo-files/2302.13971v1.pdf")
  = (recorded_disk, Ok [ lit "/9hMTGH/2Q=="; lit "/9hNQf/Z" ]).
Proof.
  destruct (base64_images_of_pdf_pages recorded_convert_from_path recorded_jpeg
              recorded_write_file recorded_disk (lit "demo-files/2302.13971v1.pdf")
              [ [x4c; x4c; x61]; [x4d; x41] ] 2)
    as (strs & Hrun & Hlength & Hpages).
  - vm_compute. reflexivity.
  - reflexivity.
  - rewrite Hrun. f_equal. f_equal.
    destruct (Hpages 0 [x4c; x4c; x61] eq_refl) as (s0 & Hs0 & Hd0).
    destruct (Hpages 1 [x4d; x41] eq_refl) as (s1 & Hs1 & Hd1).
    destruct strs as [|t0 [|t1 [|t2 strs]]]; try discriminate Hlength.
    cbn in Hs0, Hs1. vm_compute in Hd0, Hd1.
    injection Hs0 as ->. injection Hs1 as ->.
    injection Hd0 as <-. injection Hd1 as <-.
    vm_compute. reflexivity.
Defined.

(** ** The multimodal request (notebook 01) *)

Lemma messages_content_images (images : list pystr) (prompt : pystr) (i : nat)
    (image_str : pystr) :
  images !! i = Some image_str →
  messages_content images prompt !! i = Some (image_entry image_str).
Proof.
  intros Himage. unfold messages_content.
  rewrite lookup_app_l by (rewrite length_fmap; by eapply lookup_lt_Some).
  by rewrite list_lookup_fmap, Himage.
Qed.

Lemma messages_content_last (images : list pystr) (prompt : pystr) :
  last (messages_content images prompt) = Some (text_entry prompt).
Proof. unfold messages_content. apply last_snoc. Qed.

Lemma body_text (system_prompt : pystr) (messages : list json) :
  body system_prompt messages
  = lit "{" ++ encode_basestring_ascii (lit "max_tokens") ++ lit ": 4096, "
    ++ encode_basestring_ascii (lit "system") ++ lit ": "
    ++ encode_basestring_ascii system_prompt ++ lit ", "
    ++ encode_basestring_ascii (lit "temperature") ++ lit ": 0.0, "
    ++ encode_basestring_ascii (lit "messages") ++ lit ": "
    ++ json_dumps (JArr messages) ++ lit ", "
    ++ encode_basestring_ascii (lit "anthropic_version") ++ lit ": "
    ++ encode_basestring_ascii (lit "bedrock-2023-05-31") ++ lit "}".
Proof.
  assert (str_of_Z 4096 = lit "4096") as Hint by (vm_compute; reflexivity).
  assert (lit ": 4096, " = lit ": " ++ lit "4096" ++ lit ", ") as Hmax
    by (vm_compute; reflexivity).
  assert (lit ": 0.0, " = lit ": " ++ lit "0.0" ++ lit ", ") as Htemp
    by (vm_compute; reflexivity).
  unfold body, body_dict. cbn [json_dumps map join fst snd].
  rewrite Hint, Hmax, Htemp. rewrite <- !app_assoc. reflexivity.
Qed.

Lemma body_dict_messages (system_prompt : pystr) (messages : list json) :
  py_get (body_dict system_prompt messages) (lit "messages") = Ok (JArr messages).
Proof. vm_compute. reflexivity. Qed.

(** C7.  The list of messages has exactly one message, of role ["user"];
    its content has one base64 JPEG image entry per element of [images], in
    the same order, and after them exactly one text entry, the last element,
    which holds the prompt.  The request body is the serialization of a
    dictionary whose [max_tokens] is 4096 and whose [temperature] is 0.0,
    and these two values stand in its text. *)
Theorem multimodal_request_shape (system_prompt prompt : pystr) (images : list pystr) :
  (∃ content,
     messages images prompt
     = [ JObj [ (lit "role", JStr (lit "user")); (lit "content", JArr content) ] ]
     ∧ length content = S (length images)
     ∧ (∀ i image_str, images !! i = Some image_str →
          content !! i
          = Some (JObj [ (lit "type", JStr (lit "image"));
                         (lit "source",
                          JObj [ (lit "type", JStr (lit "base64"));
                                 (lit "media_type", JStr (lit "image/jpeg"));
                                 (lit "data", JStr image_str) ]) ]))
     ∧ content !! length images
       = Some (JObj [ (lit "type", JStr (lit "text")); (lit "text", JStr prompt) ])
     ∧ last content
       = Some (JObj [ (lit "type", JStr (lit "text")); (lit "text", JStr prompt) ]))
  ∧ py_get (body_dict system_prompt (messages images prompt)) (lit "max_tokens")
    = Ok (JInt 4096)
  ∧ py_get (body_dict system_prompt (messages images prompt)) (lit "temperature")
    = Ok (JFloat (lit "0.0"))
  ∧ py_get (body_dict system_prompt (messages images prompt)) (lit "messages")
    = Ok (JArr (messages images prompt))
  ∧ body system_prompt (messages images prompt)
    = lit "{" ++ encode_basestring_ascii (lit "max_tokens") ++ lit ": 4096, "
      ++ encode_basestring_ascii (lit "system") ++ lit ": "
      ++ encode_basestring_ascii system_prompt ++ lit ", "
      ++ encode_basestring_ascii (lit "temperature") ++ lit ": 0.0, "
      ++ encode_basestring_ascii (lit "messages") ++ lit ": "
      ++ json_dumps (JArr (messages images prompt)) ++ lit ", "
      ++ encode_basestring_ascii (lit "anthropic_version") ++ lit ": "
      ++ encode_basestring_ascii (lit "bedrock-2023-05-31") ++ lit "}".
Proof.
  split; [|split; [|split; [|split]]].
  - exists (messages_content images prompt). split; [reflexivity|]. split; [|split; [|split]].
    + unfold messages_content. rewrite length_app, length_fmap. cbn. lia.
    + intros i image_str. apply messages_content_images.
    + unfold messages_content.
      rewrite lookup_app_r by (by rewrite length_fmap).
      rewrite length_fmap, Nat.sub_diag. reflexivity.
    + apply messages_content_last.
  - vm_compute. reflexivity.
  - vm_compute. reflexivity.
  - apply body_dict_messages.
  - apply body_text.
Qed.

(** ** The cell of task 3 (notebook 02) *)

(** C3, as amended.  In the attribute-extraction notebook the cell of task
    3 binds [json_file] to the empty dictionary, whatever text the
    invocation accumulated in [output]: as the notebook stands nothing is
    parsed out of the answer, and the conversion of the text into a JSON
    object is the part the reader is asked to write. *)
Theorem json_file_is_empty_dictionary (output : pystr) :
  json_file output = JObj []
  ∧ truthy (json_file output) = false
  ∧ ∀ key, py_get (json_file output) key = Ok JNull.
Proof. repeat split. Qed.

(** The claim fails on an answer that is JSON: the object the answer
    spells out is not the value of [json_file], neither when the answer is
    the JSON text alone nor when it stands between the tags. *)
Lemma json_file_not_parsed_from_output :
  json_file (json_dumps recorded_answer) ≠ recorded_answer
  ∧ json_file recorded_output ≠ recorded_answer
  ∧ py_get recorded_answer (lit "Title") = Ok (JStr (lit "Mistral 7B"))
  ∧ py_get (json_file recorded_output) (lit "Title") = Ok JNull.
Proof.
  repeat split; try discriminate; vm_compute; reflexivity.
Qed.

(** ** The data-automation job (notebook 03) *)

Section DataAutomationProperties.
Variable str_of : pyval → pystr.
Variable invoke_data_automation_async : list (string * pyval) → pyresult pyval.

Lemma load_bound (globals : gmap string pyval) (name : string) (v : pyval) :
  globals !! name = Some v → load globals name = Ok v.
Proof. intros Hv. unfold load. by rewrite Hv. Qed.

Lemma load_unbound (globals : gmap string pyval) (name : string) :
  globals !! name = None → load globals name = Raise (NameError name).
Proof. intros Hv. unfold load. by rewrite Hv. Qed.

(** No cell above the invocation cell assigns [default_profile_arn]. *)
Lemma default_profile_arn_never_assigned :
  "default_profile_arn" ∉ names_bound_before_invocation.
Proof. apply (bool_decide_eq_false_1 _). vm_compute. reflexivity. Qed.

(** The first statement binds a tuple, not a string. *)
Lemma assign_profile_arn_tuple (globals globals' : gmap string pyval) :
  assign_profile_arn str_of globals = Ok globals' →
  ∃ region_id account_id,
    globals !! "REGION_ID" = Some region_id
    ∧ globals !! "ACCOUNT_ID" = Some account_id
    ∧ globals' = <["dataAutomationProfileArn" :=
                   VTuple [VStr (profile_arn (format str_of region_id)
                                             (format str_of account_id))]]> globals.
Proof.
  unfold assign_profile_arn, load.
  destruct (globals !! "REGION_ID") as [region_id|]; [|discriminate].
  destruct (globals !! "ACCOUNT_ID") as [account_id|]; [|discriminate].
  cbn [bind]. intros [= <-]. by exists region_id, account_id.
Qed.

(** The fourth keyword argument is read from the name [default_profile_arn]:
    when the name is unbound the arguments cannot be evaluated, and when it
    is bound its value is passed, whatever [dataAutomationProfileArn] holds. *)
Lemma call_arguments_unbound (globals : gmap string pyval) :
  globals !! "default_profile_arn" = None →
  ∃ name, call_arguments str_of globals = Raise (NameError name).
Proof.
  intros Hunbound. unfold call_arguments, load. rewrite Hunbound.
  destruct (globals !! "bda_runtime_client"); [|by eexists].
  destruct (globals !! "s3_bucket"); [|by eexists].
  destruct (globals !! "s3_file_key"); [|by eexists].
  destruct (globals !! "blueprint_arn"); by eexists.
Qed.

Lemma call_arguments_bound (globals : gmap string pyval) (kwargs : list (string * pyval)) :
  call_arguments str_of globals = Ok kwargs →
  ∃ v, globals !! "default_profile_arn" = Some v
       ∧ list_find (fun kw => kw.1 = "dataAutomationProfileArn") kwargs
         = Some (3, ("dataAutomationProfileArn", v)).
Proof.
  unfold call_arguments, load.
  destruct (globals !! "bda_runtime_client"); [|discriminate].
  destruct (globals !! "s3_bucket"); [|discriminate].
  destruct (globals !! "s3_file_key"); [|discriminate].
  destruct (globals !! "blueprint_arn"); [|discriminate].
  destruct (globals !! "default_profile_arn") as [v|]; [|discriminate].
  cbn [bind]. intros [= <-]. exists v. split; [done|].
  vm_compute. reflexivity.
Qed.

(** While [default_profile_arn] is unbound the invocation cell ends with a
    [NameError] before the service is called. *)
Lemma invocation_cell_name_error (globals : gmap string pyval) :
  globals !! "default_profile_arn" = None →
  ∃ name, (invocation_cell str_of invoke_data_automation_async globals).2
          = Raise (NameError name)
          ∧ (invocation_cell str_of invoke_data_automation_async globals).1.2 = [].
Proof.
  intros Hunbound. unfold invocation_cell.
  destruct (assign_profile_arn str_of globals) as [globals'|e] eqn:Hassign.
  - apply assign_profile_arn_tuple in Hassign as (r & a & _ & _ & ->).
    destruct (call_arguments_unbound
                (<["dataAutomationProfileArn" :=
                   VTuple [VStr (profile_arn (format str_of r) (format str_of a))]]> globals))
      as [name Hargs].
    { by rewrite lookup_insert_ne. }
    rewrite Hargs. cbn. by exists name.
  - cbn. unfold assign_profile_arn, load in Hassign.
    destruct (globals !! "REGION_ID"); [|injection Hassign as <-; by eexists].
    destruct (globals !! "ACCOUNT_ID"); [|injection Hassign as <-; by eexists].
    discriminate.
Qed.

(** That is the state of the kernel when the notebook is run from the top. *)
Lemma invocation_cell_after_earlier_cells (globals : gmap string pyval) :
  (∀ name, is_Some (globals !! name) → name ∈ names_bound_before_invocation) →
  ∃ name, (invocation_cell str_of invoke_data_automation_async globals).2
          = Raise (NameError name).
Proof.
  intros Hbound.
  destruct (invocation_cell_name_error globals) as (name & Hraise & _); [|by exists name].
  destruct (globals !! "default_profile_arn") eqn:E; [|done].
  destruct default_profile_arn_never_assigned. apply Hbound. by rewrite E.
Qed.

End DataAutomationProperties.

(** C10.  What the claim states does not hold of the cell: run on the
    globals the cells above it leave for the account 123456789012, the cell
    binds [dataAutomationProfileArn] to a tuple of one element that holds the
    profile ARN, not to the ARN, and the call reads its fourth keyword
    argument from [default_profile_arn], a name that is not bound: the cell
    ends with that [NameError], nothing is printed and the service is not
    called. *)
Theorem invocation_cell_on_recorded_globals :
  (invocation_cell no_str recorded_data_automation recorded_globals).2
  = Raise (NameError "default_profile_arn")
  ∧ (invocation_cell no_str recorded_data_automation recorded_globals).1.2 = []
  ∧ (invocation_cell no_str recorded_data_automation recorded_globals).1.1
      !! "dataAutomationProfileArn"
    = Some (VTuple [VStr (lit "arn:aws:bedrock:us-west-2:123456789012:data-automation-profile/us.data-automation-v1")])
  ∧ recorded_globals !! "default_profile_arn" = None
  ∧ (∀ name, is_Some (recorded_globals !! name) → name ∈ names_bound_before_invocation).
Proof.
  split; [vm_compute; reflexivity|]. split; [vm_compute; reflexivity|].
  split; [vm_compute; reflexivity|]. split; [vm_compute; reflexivity|].
  intros name [v Hv]. unfold recorded_globals in Hv.
  apply elem_of_list_to_map_2 in Hv.
  apply (list_elem_of_fmap_2 fst) in Hv. cbn in Hv. exact Hv.
Qed.

(* ===================================================================== *)
(** * Part III: further properties of the cells                           *)
(* ===================================================================== *)

(** ** What the loops of the streamed answer print *)

Lemma stdout_app (actions actions' : list action) :
  stdout (actions ++ actions') = stdout actions ++ stdout actions'.
Proof. unfold stdout. by rewrite omap_app, join_app. Qed.

Lemma stdout_print (text line_end : pystr) (w : world) :
  stdout (trace (print text line_end w)) = stdout (trace w) ++ text ++ line_end.
Proof.
  unfold print, log. cbn [trace]. rewrite stdout_app. unfold stdout at 2.
  cbn. by rewrite app_nil_r.
Qed.

Lemma stdout_log_invoke (req : request) (w : world) :
  stdout (trace (log (InvokeModel req) w)) = stdout (trace w).
Proof.
  unfold log. cbn [trace]. rewrite stdout_app. unfold stdout at 2.
  cbn. by rewrite app_nil_r.
Qed.

Section StdoutOfLoops.
Variable json_loads : pystr → pyresult json.
Variable container_repr : json → pystr.

Lemma on_event_stdout (ev : event) (output : pystr) (w : world) :
  ∃ added,
    (on_event json_loads ev output w).1.1 = output ++ added
    ∧ stdout (trace (on_event json_loads ev output w).1.2) = stdout (trace w) ++ added
    ∧ files (on_event json_loads ev output w).1.2 = files w.
Proof.
  unfold on_event.
  destruct (text_of_event json_loads ev) as [[[ |b|z|r|s|items|members]|]|e];
    cbn [fst snd].
  all: try (exists []; by rewrite !app_nil_r).
  exists s. rewrite stdout_print. by rewrite app_nil_r.
Qed.

(** Events that are well formed and go on are read one after the other;
    the loop is then at the event that follows them. *)
Lemma for_events_goes_on (before : list event) (output : pystr) (w : world) :
  Forall (event_well_formed json_loads) before →
  Forall (goes_on json_loads) before →
  ∃ w1,
    (∀ rest, for_events json_loads (before ++ rest) output w
             = for_events json_loads rest (output ++ expected_output json_loads before) w1)
    ∧ stdout (trace w1) = stdout (trace w) ++ expected_output json_loads before
    ∧ invocations (trace w1) = invocations (trace w).
Proof.
  intros Hwf. revert output w.
  induction Hwf as [|ev before Hev _ IH]; intros output w Hgo.
  - exists w. cbn. by rewrite !app_nil_r.
  - apply Forall_cons in Hgo as [Hgo_ev Hgo].
    rewrite expected_output_cons. unfold goes_on in Hgo_ev.
    destruct (event_delta json_loads ev) as [delta|] eqn:Hdelta.
    + destruct Hgo_ev as (c & s & Htext). rewrite Htext.
      destruct (IH (output ++ c :: s) (print (c :: s) [] w) Hgo)
        as (w1 & Hrun & Hstdout & Hinv).
      exists w1. split; [|split].
      * intros rest. cbn [app for_events].
        rewrite (on_event_well_formed _ _ _ _ Hev), Hdelta. unfold step_of_delta.
        rewrite Htext. rewrite Hrun. by rewrite <- app_assoc.
      * rewrite Hstdout, stdout_print. by rewrite app_nil_r, <- app_assoc.
      * rewrite Hinv. by apply print_quiet.
    + destruct (IH output w Hgo) as (w1 & Hrun & Hstdout & Hinv).
      exists w1. split; [|done].
      intros rest. cbn [app for_events].
      rewrite (on_event_well_formed _ _ _ _ Hev), Hdelta. unfold step_of_delta.
      apply Hrun.
Qed.

Lemma on_event_failure (ev : event) (output : pystr) (w : world) (e : exn) :
  failure_of_event json_loads ev = Some e →
  on_event json_loads ev output w = (output, w, Raise e).
Proof.
  unfold failure_of_event, on_event.
  destruct (text_of_event json_loads ev) as [[[ |b|z|r|s|items|members]|]|e'];
    intros [= <-]; reflexivity.
Qed.

Lemma on_event_00_well_formed (ev : event) (w : world) :
  event_well_formed json_loads ev →
  on_event_00 json_loads container_repr ev w
  = match event_delta json_loads ev with
    | None => (w, Ok Continue)
    | Some delta =>
        match delta_text delta with
        | Some (c :: s) => (print (c :: s) [] w, Ok Continue)
        | Some [] => (print [] [] w, Ok Break)
        | None => (print (lit "None") [] w, Ok Break)
        end
    end.
Proof.
  intros Hwf. unfold on_event_00. rewrite (text_of_event_well_formed _ _ Hwf).
  destruct (event_delta json_loads ev) as [delta|]; [|done].
  destruct (delta_text delta) as [[|c s]|]; [done| |done].
  cbn [py_str truthy]. by rewrite bool_decide_eq_false_2.
Qed.

End StdoutOfLoops.

(** X1.  In the loop of notebooks 01 and 02 the text printed and the text
    accumulated never part: for every stream, every starting value of
    [output] and every run of the loop, also one that an exception ends,
    the characters added to [output] are the characters added to the
    standard output, and the loop leaves the files alone. *)
Theorem printed_text_is_accumulated_text
    (json_loads : pystr → pyresult json) (stream : list event)
    (output : pystr) (w : world) :
  ∃ added,
    (for_events json_loads stream output w).1.1 = output ++ added
    ∧ stdout (trace (for_events json_loads stream output w).1.2)
      = stdout (trace w) ++ added
    ∧ files (for_events json_loads stream output w).1.2 = files w.
Proof.
  revert output w. induction stream as [|ev stream IH]; intros output w.
  - exists []. cbn. by rewrite !app_nil_r.
  - cbn [for_events].
    destruct (on_event_stdout json_loads ev output w)
      as (added & Houtput & Hstdout & Hfiles).
    destruct (on_event json_loads ev output w) as [[output1 w1] [[]|e]];
      cbn [fst snd] in *.
    + destruct (IH output1 w1) as (added' & Houtput' & Hstdout' & Hfiles').
      exists (added ++ added').
      rewrite Houtput', Hstdout', Hfiles', Houtput, Hstdout, Hfiles.
      by rewrite !app_assoc.
    + by exists added.
    + by exists added.
Qed.

(** X2.  The loop of notebook 00 prints [text] before it tests it.  On a
    stream of well-formed events it ends without an exception, and what it
    has printed is the concatenation of the texts up to the first absent or
    empty one, followed by the word [None] when the loop ended on a delta
    without a text. *)
Theorem prerequisites_loop_prints_none
    (json_loads : pystr → pyresult json) (container_repr : json → pystr)
    (stream : list event) (w : world) :
  Forall (event_well_formed json_loads) stream →
  ∃ w', for_events_00 json_loads container_repr stream w = (w', Ok ())
    ∧ stdout (trace w')
      = stdout (trace w) ++ expected_output json_loads stream
        ++ (if stops_on_missing_text (delta_text <$> omap (event_delta json_loads) stream)
            then lit "None" else []).
Proof.
  intros Hwf. revert w.
  induction Hwf as [|ev stream Hev _ IH]; intros w.
  - exists w. cbn. by rewrite !app_nil_r.
  - cbn [for_events_00]. rewrite (on_event_00_well_formed _ _ _ _ Hev).
    rewrite expected_output_cons. cbn [omap list_omap].
    destruct (event_delta json_loads ev) as [delta|]; [|apply IH].
    cbn [fmap list_fmap stops_on_missing_text].
    destruct (delta_text delta) as [[|c s]|].
    + eexists. split; [reflexivity|]. rewrite stdout_print. by rewrite !app_nil_r.
    + destruct (IH (print (c :: s) [] w)) as (w' & -> & Hstdout).
      exists w'. split; [reflexivity|].
      rewrite Hstdout, stdout_print. by rewrite app_nil_r, <- !app_assoc.
    + eexists. split; [reflexivity|]. rewrite stdout_print. by rewrite !app_nil_r.
Qed.

(** On the recorded answer, whose [message_delta] event has a delta without
    a text, notebook 00 prints the answer and then [None]. *)
Lemma prerequisites_loop_prints_none_witness :
  ∃ w', for_events_00 recorded_json_loads no_repr recorded_stream empty_world = (w', Ok ())
    ∧ stdout (trace w') = lit "Amazon Web ServicesNone".
Proof.
  assert (Forall (event_well_formed recorded_json_loads) recorded_stream) as Hwf.
  { unfold recorded_stream, recorded_payloads. cbn [fmap list_fmap].
    forall_list; [exact I|..].
    all: unfold event_well_formed, chunk_event; cbn [chunk bytes].
    all: eexists; split; [vm_compute; reflexivity|vm_compute; eauto]. }
  destruct (prerequisites_loop_prints_none recorded_json_loads no_repr
              recorded_stream empty_world Hwf) as (w' & Hrun & Hstdout).
  exists w'. split; [exact Hrun|].
  rewrite Hstdout. vm_compute. reflexivity.
Defined.

(** X3.  When a pass of the loop of notebook 01 or 02 raises an exception
    that is no [ClientError], after events that were well formed and did not
    end the loop, the cell ends with that exception, the later events are
    not read, and the text of the earlier events is kept: it is the value of
    [output] and it stands on the standard output. *)
Theorem partial_output_kept_on_failure
    (json_loads : pystr → pyresult json)
    (invoke_model_with_response_stream : request → pyresult response)
    (container_repr : json → pystr)
    (nb : notebook) (req : request) (w : world)
    (before : list event) (ev : event) (after : list event) (e : exn) :
  nb ≠ Notebook00 →
  invoke_model_with_response_stream req
  = Ok {| response_body := Some (before ++ ev :: after) |} →
  Forall (event_well_formed json_loads) before →
  Forall (goes_on json_loads) before →
  failure_of_event json_loads ev = Some e →
  (∀ code message, e ≠ ClientError code message) →
  ∃ w', invoke_cell json_loads invoke_model_with_response_stream container_repr nb req w
        = (Some (JStr (expected_output json_loads before)), w', Raise e)
    ∧ stdout (trace w') = stdout (trace w) ++ expected_output json_loads before
    ∧ invocations (trace w') = invocations (trace w) ++ [req].
Proof.
  intros Hnb Hresponse Hwf Hgo Hfail Hclient.
  destruct (for_events_goes_on json_loads before [] (log (InvokeModel req) w) Hwf Hgo)
    as (w1 & Hrun & Hstdout & Hinv).
  exists w1. split; [|split].
  - unfold invoke_cell, try_block. rewrite Hresponse. cbn [response_body].
    assert (for_events json_loads (before ++ ev :: after) [] (log (InvokeModel req) w)
            = (expected_output json_loads before, w1, Raise e)) as Hloop.
    { rewrite Hrun. cbn [for_events app]. by rewrite (on_event_failure _ _ _ _ _ Hfail). }
    destruct nb; [done| |]; rewrite Hloop.
    all: destruct e; try reflexivity; by destruct (Hclient code message).
  - by rewrite Hstdout, stdout_log_invoke.
  - by rewrite Hinv, invocations_log_invoke.
Qed.

(** A payload that is no UTF-8 text after two deltas of the recorded
    answer: the cell of notebook 01 ends with [UnicodeDecodeError] and
    [output] holds the two texts. *)
Lemma partial_output_kept_on_failure_witness :
  ∃ w', invoke_cell recorded_json_loads
          (fun _ => Ok {| response_body :=
                            Some ([ chunk_event message_start;
                                    chunk_event (content_block_delta (lit "Amazon"));
                                    chunk_event (content_block_delta (lit " Web Services")) ]
                                  ++ {| chunk := Some {| bytes := Some [xff] |} |}
                                  :: [ chunk_event message_stop ]) |})
          no_repr Notebook01 recorded_request empty_world
        = (Some (JStr (lit "Amazon Web Services")), w', Raise UnicodeDecodeError)
    ∧ stdout (trace w') = lit "Amazon Web Services".
Proof.
  destruct (partial_output_kept_on_failure recorded_json_loads
              (fun _ => Ok {| response_body :=
                            Some ([ chunk_event message_start;
                                    chunk_event (content_block_delta (lit "Amazon"));
                                    chunk_event (content_block_delta (lit " Web Services")) ]
                                  ++ {| chunk := Some {| bytes := Some [xff] |} |}
                                  :: [ chunk_event message_stop ]) |})
              no_repr Notebook01 recorded_request empty_world
              [ chunk_event message_start;
                chunk_event (content_block_delta (lit "Amazon"));
                chunk_event (content_block_delta (lit " Web Services")) ]
              {| chunk := Some {| bytes := Some [xff] |} |}
              [ chunk_event message_stop ] UnicodeDecodeError)
    as (w' & Hrun & Hstdout & _).
  - discriminate.
  - reflexivity.
  - forall_list.
    all: unfold event_well_formed, chunk_event; cbn [chunk bytes].
    all: eexists; split; [vm_compute; reflexivity|vm_compute; eauto].
  - forall_list.
    all: unfold goes_on; vm_compute; eauto.
  - vm_compute. reflexivity.
  - discriminate.
  - exists w'. split.
    + rewrite Hrun.
      apply (f_equal (fun o => (Some (JStr o), w', @Raise unit UnicodeDecodeError))).
      vm_compute. reflexivity.
    + rewrite Hstdout. vm_compute. reflexivity.
Defined.

(** ** Output files: where they are, when they coincide, the way back *)


(** X6.  Where the two cells of notebook 01 write.  For a key that does
    not start with [/] the Textractor loop and the export cell write inside
    the output folder, at [processed-files/] followed by the output file
    name; for a key that starts with [/], [os.path.join] drops the folder
    and both files are written at an absolute path. *)
Theorem output_files_under_output_path (obj : s3_object) (output : pystr) (w : world) :
  (startswith (Key obj) slash = false →
     output_file obj = lit "processed-files/" ++ textract_output_filename (Key obj)
     ∧ export_cell obj output w
       = write_text (lit "processed-files/" ++ bedrock_output_filename (Key obj)) output w)
  ∧ (startswith (Key obj) slash = true →
     output_file obj = textract_output_filename (Key obj)
     ∧ export_cell obj output w = write_text (bedrock_output_filename (Key obj)) output w
     ∧ startswith (textract_output_filename (Key obj)) slash = true
     ∧ startswith (bedrock_output_filename (Key obj)) slash = true).
Proof.
  unfold output_file, export_cell, textract_output_filename, bedrock_output_filename.
  rewrite !os_path_join_output_path.
  rewrite !output_filename_starts by (vm_compute; reflexivity).
  split; intros Hkey; rewrite Hkey; done.
Qed.

Lemma output_files_under_output_path_witness :
  output_file {| Key := lit "2302.13971v1.pdf" |}
  = lit "processed-files/2302.13971v1_textract.txt"
  ∧ writes (trace (export_cell {| Key := lit "/tmp/2302.13971v1.pdf" |} (lit "# LLaMA")
                     empty_world))
    = [ (lit "/tmp/2302.13971v1_bedrock.txt", lit "# LLaMA") ].
Proof.
  split.
  - destruct (output_files_under_output_path {| Key := lit "2302.13971v1.pdf" |} []
                empty_world) as [Hinside _].
    destruct Hinside as [-> _]; vm_compute; reflexivity.
  - destruct (output_files_under_output_path {| Key := lit "/tmp/2302.13971v1.pdf" |}
                (lit "# LLaMA") empty_world) as [_ Habsolute].
    destruct Habsolute as (_ & -> & _); vm_compute; reflexivity.
Defined.



(** X8.  Two keys have the same output file name exactly when they are
    equal or one of them is the other followed by [.pdf], the other not
    ending in [.pdf] itself: the stripping of the suffix is the only source
    of collisions. *)
Theorem output_filename_collisions (tail key1 key2 : pystr) :
  output_filename tail key1 = output_filename tail key2
  ↔ key1 = key2
    ∨ (key1 = key2 ++ dot_pdf ∧ ¬ dot_pdf `suffix_of` key2)
    ∨ (key2 = key1 ++ dot_pdf ∧ ¬ dot_pdf `suffix_of` key1).
Proof.
  split.
  - unfold output_filename. intros Heq. apply app_inv_tail in Heq.
    destruct (endswith key1 dot_pdf) eqn:H1; destruct (endswith key2 dot_pdf) eqn:H2.
    + apply endswith_suffix in H1 as [s1 ->]. apply endswith_suffix in H2 as [s2 ->].
      rewrite !removesuffix_app in Heq. left. by rewrite Heq.
    + apply endswith_suffix in H1 as [s1 ->].
      rewrite removesuffix_app, (removesuffix_absent key2) in Heq by done.
      right. left. split; [by rewrite Heq|].
      intros Hs. apply endswith_suffix in Hs. congruence.
    + apply endswith_suffix in H2 as [s2 ->].
      rewrite removesuffix_app, (removesuffix_absent key1) in Heq by done.
      right. right. split; [by rewrite Heq|].
      intros Hs. apply endswith_suffix in Hs. congruence.
    + rewrite !removesuffix_absent in Heq by done. by left.
  - intros [-> | [[-> Hno] | [-> Hno]]]; [done| |].
    + by rewrite output_filename_pdf, output_filename_other.
    + by rewrite output_filename_pdf, output_filename_other.
Qed.

(** ** The Textractor loop: failures and files *)

Section TextractorFailures.
Variable s3_bucket : pystr.
Variable task1 : pystr → pyresult pyobj.





End TextractorFailures.





(** ** S3 URIs: every location *)

Lemma split_at_first_char_spec (c : N) (s : pystr) :
  match split_at_first [c] s with
  | Some (before, after) => s = before ++ c :: after ∧ c ∉ before
  | None => c ∉ s
  end.
Proof.
  induction s as [|a s IH].
  - cbn. apply not_elem_of_nil.
  - cbn [split_at_first]. unfold startswith. cbn [length take drop].
    destruct (decide (a = c)) as [->|Hne].
    + rewrite bool_decide_eq_true_2 by done. split; [done|apply not_elem_of_nil].
    + rewrite bool_decide_eq_false_2 by congruence.
      destruct (split_at_first [c] s) as [[before after]|].
      * destruct IH as [-> Hfresh]. split; [done|].
        apply not_elem_of_cons. by split; [congruence|].
      * apply not_elem_of_cons. by split; [congruence|].
Qed.

Lemma split_char_unique (c : N) (a b a' b' : pystr) :
  c ∉ a → c ∉ a' → a ++ c :: b = a' ++ c :: b' → a = a' ∧ b = b'.
Proof.
  revert a'. induction a as [|x a IH]; intros [|x' a'] Ha Ha'; cbn [app].
  - by intros [= ->].
  - intros [= <- _]. apply not_elem_of_cons in Ha' as [? _]. done.
  - intros [= -> _]. apply not_elem_of_cons in Ha as [? _]. done.
  - intros [= -> Heq].
    apply not_elem_of_cons in Ha as [_ Ha]. apply not_elem_of_cons in Ha' as [_ Ha'].
    destruct (IH a' Ha Ha' Heq) as [-> ->]. done.
Qed.


(** X10.  The arguments of [get_object].  The call is reached with bucket
    [b] and key [k] exactly when the location without its [s3://] prefix is
    [b/k] with no [/] in [b]; [IndexError] is raised exactly when no [/]
    follows the prefix, and no other exception can be; a location that has
    the prefix is then [s3://b/k] again.  The prefix itself is not asked
    for. *)
Theorem get_object_args_characterised (location : pystr) :
  (get_object_args location = Raise IndexError
   ↔ contains (removeprefix location s3_scheme) slash = false)
  ∧ (∀ e, get_object_args location = Raise e → e = IndexError)
  ∧ (∀ bucket key,
       get_object_args location = Ok (bucket, key)
       ↔ removeprefix location s3_scheme = bucket ++ slash ++ key
         ∧ contains bucket slash = false)
  ∧ (∀ bucket key,
       startswith location s3_scheme = true →
       get_object_args location = Ok (bucket, key) →
       s3_uri bucket key = location).
Proof.
  assert (∀ bucket key,
            get_object_args location = Ok (bucket, key)
            ↔ removeprefix location s3_scheme = bucket ++ slash ++ key
              ∧ contains bucket slash = false) as Hok.
  { intros bucket key.
    unfold get_object_args, s3_uri_parts, split, slash. cbn [split_pieces].
    pose proof (split_at_first_char_spec 47 (removeprefix location s3_scheme)) as Hsplit.
    destruct (split_at_first [47%N] (removeprefix location s3_scheme))
      as [[before after]|]; cbn [bind getitem lookup list_lookup].
    - destruct Hsplit as [Heq Hfresh]. split.
      + intros [= <- <-]. split; [done|by apply contains_char].
      + intros [Heq' Hfresh']. apply contains_char in Hfresh'.
        rewrite Heq in Heq'. cbn [app] in Heq'.
        by destruct (split_char_unique _ _ _ _ _ Hfresh Hfresh' Heq') as [-> ->].
    - split; [done|]. intros [Heq Hfresh]. exfalso. apply Hsplit.
      rewrite Heq. apply elem_of_app. right. by left. }
  assert (∀ e, get_object_args location = Raise e → e = IndexError) as Hraise.
  { intros e. unfold get_object_args, s3_uri_parts, split, slash. cbn [split_pieces].
    destruct (split_at_first [47%N] (removeprefix location s3_scheme))
      as [[before after]|]; cbn [bind getitem lookup list_lookup]; [done|].
    by intros [= <-]. }
  split; [|split; [exact Hraise|split; [exact Hok|]]].
  - unfold get_object_args, s3_uri_parts, split, slash. cbn [split_pieces].
    unfold contains.
    destruct (split_at_first [47%N] (removeprefix location s3_scheme))
      as [[before after]|]; cbn [bind getitem lookup list_lookup]; done.
  - intros bucket key Hscheme Hargs. apply Hok in Hargs as [Heq _].
    unfold s3_uri. rewrite <- Heq.
    apply startswith_prefix in Hscheme as [rest ->].
    by rewrite removeprefix_app.
Qed.

(** A location of the job: the parts are the bucket and the whole key.  A
    location without the prefix is split all the same, and one without a
    key raises. *)
Lemma get_object_args_characterised_witness :
  get_object_args (lit "s3://workshop/bda-outputs/job/job_metadata.json")
  = Ok (lit "workshop", lit "bda-outputs/job/job_metadata.json")
  ∧ get_object_args (lit "https://workshop/key") = Ok (lit "https:", lit "/workshop/key")
  ∧ get_object_args (lit "s3://workshop") = Raise IndexError.
Proof.
  split; [|split].
  - apply (get_object_args_characterised
             (lit "s3://workshop/bda-outputs/job/job_metadata.json")).
    split; vm_compute; reflexivity.
  - apply (get_object_args_characterised (lit "https://workshop/key")).
    split; vm_compute; reflexivity.
  - apply (get_object_args_characterised (lit "s3://workshop")).
    vm_compute. reflexivity.
Defined.

(** ** The characters of a request body *)

Lemma printable_text_forallb (s : pystr) :
  forallb printable s = true ↔ printable_text s.
Proof.
  unfold printable_text. rewrite forallb_forall, Forall_forall.
  split; intros Hall c Hc.
  - apply list_elem_of_In, Hall in Hc. unfold printable in Hc.
    apply andb_true_iff in Hc as [Hlo Hhi]. apply N.leb_le in Hlo, Hhi. lia.
  - apply list_elem_of_In, Hall in Hc. unfold printable.
    apply andb_true_iff. split; apply N.leb_le; lia.
Qed.

Lemma printable_text_app (s t : pystr) :
  printable_text s → printable_text t → printable_text (s ++ t).
Proof. intros Hs Ht. apply Forall_app. by split. Qed.

(** A text written out in the source. *)
Ltac printable_literal := apply printable_text_forallb; vm_compute; reflexivity.

Lemma hex_digit_printable (n : N) : (n < 16)%N → (32 ≤ hex_digit n ≤ 126)%N.
Proof. intros Hn. unfold hex_digit. destruct (N.ltb_spec n 10); lia. Qed.

Lemma land_15_lt (n : N) : (N.land n 15 < 16)%N.
Proof. change 15%N with (N.ones 4). rewrite N.land_ones. by apply N.mod_lt. Qed.

Lemma u_escape_printable (n : N) : printable_text (u_escape n).
Proof.
  unfold u_escape, hex4. apply printable_text_app; [printable_literal|].
  unfold printable_text. forall_list; apply hex_digit_printable, land_15_lt.
Qed.

Lemma escape_char_printable (c : N) : printable_text (escape_char c).
Proof.
  unfold escape_char.
  repeat (destruct (_ =? _)%N; [printable_literal|]).
  destruct ((32 <=? c) && (c <=? 126))%N eqn:Hc.
  - apply printable_text_forallb. cbn [forallb]. unfold printable. by rewrite Hc.
  - destruct (c <? 65536)%N; [apply u_escape_printable|].
    apply printable_text_app; apply u_escape_printable.
Qed.

Lemma encode_basestring_ascii_printable (s : pystr) :
  printable_text (encode_basestring_ascii s).
Proof.
  unfold encode_basestring_ascii.
  apply printable_text_app; [printable_literal|].
  apply printable_text_app; [|printable_literal].
  induction s as [|c s IH]; [apply Forall_nil_2|].
  cbn [fmap list_fmap mjoin list_join]. apply printable_text_app; [|exact IH].
  apply escape_char_printable.
Qed.

Lemma lit_String (c : ascii) (s : string) : lit (String c s) = N_of_ascii c :: lit s.
Proof. reflexivity. Qed.

Lemma string_of_uint_printable (d : Decimal.uint) :
  printable_text (lit (NilEmpty.string_of_uint d)).
Proof.
  induction d; cbn [NilEmpty.string_of_uint]; [apply Forall_nil_2|..].
  all: rewrite lit_String; apply Forall_cons; split; [vm_compute; split; discriminate|done].
Qed.

Lemma str_of_Z_printable (z : Z) : printable_text (str_of_Z z).
Proof.
  unfold str_of_Z.
  assert (∀ d, printable_text (lit (NilZero.string_of_uint d))) as Huint.
  { intros d. destruct d; try apply string_of_uint_printable. printable_literal. }
  destruct (Z.to_int z) as [d|d]; cbn [NilZero.string_of_int]; [apply Huint|].
  rewrite lit_String. apply Forall_cons. split; [vm_compute; split; discriminate|apply Huint].
Qed.

Lemma join_printable (sep : pystr) (parts : list pystr) :
  printable_text sep → Forall printable_text parts → printable_text (join sep parts).
Proof.
  intros Hsep Hparts. induction Hparts as [|part parts Hpart Hrest IH]; [apply Forall_nil_2|].
  cbn [join]. destruct parts as [|next parts]; [exact Hpart|].
  apply printable_text_app; [exact Hpart|]. by apply printable_text_app.
Qed.

(** Induction on a JSON value, with the items of a list and the members of
    a dictionary. *)
Lemma json_nested_ind (P : json → Prop) :
  P JNull → (∀ b, P (JBool b)) → (∀ z, P (JInt z)) → (∀ r, P (JFloat r)) →
  (∀ s, P (JStr s)) →
  (∀ items, Forall P items → P (JArr items)) →
  (∀ members, Forall (fun m => P (snd m)) members → P (JObj members)) →
  ∀ j, P j.
Proof.
  intros Hnull Hbool Hint Hfloat Hstr Harr Hobj.
  fix go 1. intros [ |b|z|r|s|items|members].
  - exact Hnull.
  - apply Hbool.
  - apply Hint.
  - apply Hfloat.
  - apply Hstr.
  - apply Harr. induction items as [|j items IH]; constructor; [apply go|exact IH].
  - apply Hobj. induction members as [|[k v] members IH]; constructor; [apply go|exact IH].
Qed.

(** [json.dumps] writes printable ASCII, whatever the strings hold. *)
Lemma json_dumps_printable (j : json) :
  plain_floats j = true → printable_text (json_dumps j).
Proof.
  induction j as [ |b|z|r|s|items IH|members IH] using json_nested_ind;
    cbn [plain_floats json_dumps]; intros Hplain.
  - printable_literal.
  - destruct b; printable_literal.
  - apply str_of_Z_printable.
  - by apply printable_text_forallb.
  - apply encode_basestring_ascii_printable.
  - apply printable_text_app; [printable_literal|].
    apply printable_text_app; [|printable_literal].
    apply join_printable; [printable_literal|].
    induction IH as [|j items Hj _ IHitems]; [apply Forall_nil_2|].
    cbn [forallb] in Hplain. apply andb_true_iff in Hplain as [Hhead Hrest].
    cbn [map]. apply Forall_cons. split; [by apply Hj|by apply IHitems].
  - apply printable_text_app; [printable_literal|].
    apply printable_text_app; [|printable_literal].
    apply join_printable; [printable_literal|].
    induction IH as [|[k v] members Hm _ IHmembers]; [apply Forall_nil_2|].
    cbn [forallb] in Hplain. apply andb_true_iff in Hplain as [Hhead Hrest].
    cbn [map]. apply Forall_cons. split; [|by apply IHmembers].
    cbn [fst snd] in *.
    apply printable_text_app; [apply encode_basestring_ascii_printable|].
    apply printable_text_app; [printable_literal|by apply Hm].
Qed.

Lemma plain_floats_image_entries (images : list pystr) :
  forallb plain_floats (image_entry <$> images) = true.
Proof. induction images as [|image images IH]; [done|]. cbn. exact IH. Qed.

(** X11.  The body of the request is printable ASCII in the three
    notebooks, whatever characters the prompts and the image strings hold:
    [json.dumps] escapes every character outside the range from the blank
    to the tilde, and the numbers of the dictionaries are written with
    digits and a point. *)
Theorem request_bodies_are_printable_ascii
    (system_prompt prompt prompt_data : pystr) (images : list pystr) :
  printable_text (req_body (ocr_request system_prompt prompt images))
  ∧ printable_text (req_body (attributes_request system_prompt prompt))
  ∧ printable_text (req_body (prerequisites_request prompt_data)).
Proof.
  split; [|split]; cbn [req_body ocr_request attributes_request prerequisites_request];
    unfold body; apply json_dumps_printable.
  - unfold body_dict, messages, messages_content. simpl.
    rewrite forallb_app, plain_floats_image_entries. reflexivity.
  - reflexivity.
  - reflexivity.
Qed.

(** ** The base64 strings of the pages *)

Lemma char_base64 (i : N) : Byte.to_N (Base64.char i) ∈ base64_chars.
Proof.
  assert (base64_chars = Byte.to_N <$> (Base64.pad :: Base64.alphabet)) as ->
    by (vm_compute; reflexivity).
  apply list_elem_of_fmap_2. unfold Base64.char.
  destruct (nth_in_or_default (N.to_nat i) Base64.alphabet Base64.pad) as [Hin | ->].
  - right. by apply list_elem_of_In.
  - by left.
Qed.

Lemma pad_base64 : Byte.to_N Base64.pad ∈ base64_chars.
Proof. vm_compute. by left. Qed.

Lemma b64encode_base64 (bs : list byte) :
  base64_text (Byte.to_N <$> Base64.b64encode bs).
Proof.
  unfold base64_text.
  induction bs as [|a|a b|a b c rest IH] using triples_ind;
    cbn [Base64.b64encode fmap list_fmap]; forall_list;
    try apply char_base64; try apply pad_base64.
  exact IH.
Qed.

Lemma b64encode_length (bs : list byte) :
  length (Base64.b64encode bs) = 4 * ((length bs + 2) / 3).
Proof.
  induction bs as [|a|a b|a b c rest IH] using triples_ind;
    cbn [Base64.b64encode length]; try reflexivity.
  rewrite IH.
  replace (S (S (S (length rest))) + 2) with (length rest + 2 + 1 * 3) by lia.
  rewrite Nat.div_add by lia. lia.
Qed.

(** A base64 character is written by [json.dumps] as it is. *)
Lemma escape_char_base64 (c : N) : c ∈ base64_chars → escape_char c = [c].
Proof.
  intros Hc.
  assert (forallb (fun c => bool_decide (escape_char c = [c])) base64_chars = true) as Hall
    by (vm_compute; reflexivity).
  apply list_elem_of_In in Hc.
  apply (proj1 (forallb_forall _ _) Hall) in Hc. by apply bool_decide_eq_true in Hc.
Qed.

Lemma encode_basestring_ascii_base64 (s : pystr) :
  base64_text s → encode_basestring_ascii s = [34%N] ++ s ++ [34%N].
Proof.
  intros Hs. unfold encode_basestring_ascii. do 2 f_equal.
  induction Hs as [|c s Hc _ IH]; [done|].
  change (escape_char c ++ mjoin (escape_char <$> s) = c :: s).
  by rewrite (escape_char_base64 c Hc), IH.
Qed.

(** X12.  The strings [get_base64_encoded_images_from_pdf] returns are
    base64 text: for every page, the string has four characters for every
    three bytes of the JPEG data, the last group counted in full, and each
    of its characters is a letter, a digit, [+], [/] or the padding [=]. *)
Theorem base64_images_are_base64_text
    {image binary_files : Type}
    (convert_from_path : binary_files → pystr → pyresult (list image))
    (jpeg : image → list byte)
    (write_file : binary_files → pystr → list byte → binary_files)
    (disk : binary_files) (pdf_file_path : pystr) (images : list image) :
  convert_from_path disk pdf_file_path = Ok images →
  ∃ base64_img_strs,
    get_base64_encoded_images_from_pdf convert_from_path jpeg write_file disk pdf_file_path
    = (disk, Ok base64_img_strs)
    ∧ Forall2 (fun page base64_string =>
                 length base64_string = 4 * ((length (jpeg page) + 2) / 3)
                 ∧ base64_text base64_string)
        images base64_img_strs.
Proof.
  intros Hconvert. unfold get_base64_encoded_images_from_pdf.
  rewrite Hconvert, encode_images_all. cbn [app].
  eexists. split; [reflexivity|].
  apply Forall2_fmap_r, Forall_Forall2_diag, Forall_forall. intros page _.
  split; [|apply b64encode_base64].
  by rewrite length_fmap, b64encode_length.
Qed.

(** The recorded PDF: pages of seven and six bytes of JPEG data give
    strings of twelve and eight characters. *)
Lemma base64_images_are_base64_text_witness :
  ∃ s1 s2,
    get_base64_encoded_images_from_pdf recorded_convert_from_path recorded_jpeg
      recorded_write_file recorded_disk (lit "demo-files/2302.13971v1.pdf")
    = (recorded_disk, Ok [s1; s2])
    ∧ length s1 = 12 ∧ length s2 = 8 ∧ base64_text s1 ∧ base64_text s2.
Proof.
  destruct (base64_images_are_base64_text recorded_convert_from_path recorded_jpeg
              recorded_write_file recorded_disk (lit "demo-files/2302.13971v1.pdf")
              [ [x4c; x4c; x61]; [x4d; x41] ])
    as (strs & Hrun & Hshape).
  - vm_compute. reflexivity.
  - apply Forall2_cons_inv_l in Hshape as (s1 & strs1 & [Hlen1 Htext1] & Hshape & ->).
    apply Forall2_cons_inv_l in Hshape as (s2 & strs2 & [Hlen2 Htext2] & Hshape & ->).
    apply Forall2_nil_inv_l in Hshape as ->.
    exists s1, s2. split; [exact Hrun|].
    split; [exact Hlen1|]. split; [exact Hlen2|]. split; [exact Htext1|exact Htext2].
Defined.

(** X13.  The image strings reach the request unchanged: in the body each
    string returned by [get_base64_encoded_images_from_pdf] stands between
    two quotation marks exactly as it is, since [json.dumps] escapes none of
    the base64 characters, the [/] included. *)
Theorem base64_images_are_sent_verbatim
    {image binary_files : Type}
    (convert_from_path : binary_files → pystr → pyresult (list image))
    (jpeg : image → list byte)
    (write_file : binary_files → pystr → list byte → binary_files)
    (disk : binary_files) (pdf_file_path : pystr)
    (base64_img_strs : list pystr) (image_str : pystr) :
  (get_base64_encoded_images_from_pdf convert_from_path jpeg write_file disk pdf_file_path).2
  = Ok base64_img_strs →
  image_str ∈ base64_img_strs →
  json_dumps (image_entry image_str)
  = lit "{" ++ json_dumps (JStr (lit "type")) ++ lit ": " ++ json_dumps (JStr (lit "image"))
    ++ lit ", " ++ json_dumps (JStr (lit "source")) ++ lit ": {"
    ++ json_dumps (JStr (lit "type")) ++ lit ": " ++ json_dumps (JStr (lit "base64"))
    ++ lit ", " ++ json_dumps (JStr (lit "media_type")) ++ lit ": "
    ++ json_dumps (JStr (lit "image/jpeg"))
    ++ lit ", " ++ json_dumps (JStr (lit "data")) ++ lit ": "
    ++ [34%N] ++ image_str ++ [34%N] ++ lit "}}".
Proof.
  intros Hrun Hin.
  assert (base64_text image_str) as Htext.
  { unfold get_base64_encoded_images_from_pdf in Hrun.
    destruct (convert_from_path disk pdf_file_path) as [images|e]; [|done].
    rewrite encode_images_all in Hrun. cbn [snd app] in Hrun.
    injection Hrun as <-.
    apply list_elem_of_fmap in Hin as (page & -> & _). apply b64encode_base64. }
  unfold image_entry. cbn [json_dumps map join fst snd].
  rewrite (encode_basestring_ascii_base64 image_str Htext).
  rewrite <- !app_assoc. reflexivity.
Qed.

(** The first string of the recorded PDF in its image entry. *)
Lemma base64_images_are_sent_verbatim_witness :
  json_dumps (image_entry (lit "/9hMTGH/2Q=="))
  = lit "{" ++ json_dumps (JStr (lit "type")) ++ lit ": " ++ json_dumps (JStr (lit "image"))
    ++ lit ", " ++ json_dumps (JStr (lit "source")) ++ lit ": {"
    ++ json_dumps (JStr (lit "type")) ++ lit ": " ++ json_dumps (JStr (lit "base64"))
    ++ lit ", " ++ json_dumps (JStr (lit "media_type")) ++ lit ": "
    ++ json_dumps (JStr (lit "image/jpeg"))
    ++ lit ", " ++ json_dumps (JStr (lit "data")) ++ lit ": "
    ++ [34%N] ++ lit "/9hMTGH/2Q==" ++ [34%N] ++ lit "}}".
Proof.
  apply (base64_images_are_sent_verbatim recorded_convert_from_path recorded_jpeg
           recorded_write_file recorded_disk (lit "demo-files/2302.13971v1.pdf")
           [ lit "/9hMTGH/2Q=="; lit "/9hNQf/Z" ]).
  - vm_compute. reflexivity.
  - by left.
Defined.

(** ** The blueprint (notebook 03) *)

Lemma has_name_named (blueprint_name : pystr) (blueprint : pyval) :
  named blueprint_name blueprint → has_name blueprint_name blueprint = Ok true.
Proof.
  unfold named, has_name, subscript, val_in.
  destruct blueprint as [s|items|items|members|d]; try done.
  destruct (list_find (fun m => m.1 = "blueprintName") members) as [[i [k v]]|]; [|done].
  intros [= ->]. rewrite bool_decide_eq_true_2 by (by eexists).
  cbn [bind is_vstr]. by rewrite bool_decide_eq_true_2.
Qed.

Lemma has_name_not_named (blueprint_name : pystr) (blueprint : pyval) :
  not_named blueprint_name blueprint → has_name blueprint_name blueprint = Ok false.
Proof.
  intros [[members ->] Hname]. unfold named in Hname.
  unfold has_name, subscript, val_in in *.
  destruct (list_find (fun m => m.1 = "blueprintName") members) as [[i [k v]]|].
  - rewrite bool_decide_eq_true_2 by (by eexists). cbn [bind].
    destruct v as [s|items|items|fields|d]; cbn [is_vstr]; try done.
    rewrite bool_decide_eq_false_2; [done|]. intros ->. by apply Hname.
  - rewrite bool_decide_eq_false_2; [done|]. by intros [? ?].
Qed.

Lemma named_truthy (blueprint_name : pystr) (blueprint : pyval) :
  named blueprint_name blueprint → val_truthy blueprint = true.
Proof.
  unfold named, subscript.
  destruct blueprint as [s|items|items|members|d]; try done.
  by destruct members.
Qed.

Lemma next_blueprint_none (blueprint_name : pystr) (blueprints : list pyval) :
  Forall (not_named blueprint_name) blueprints →
  next_blueprint blueprint_name blueprints = Ok None.
Proof.
  induction 1 as [|blueprint blueprints Hother _ IH]; [done|].
  cbn [next_blueprint]. by rewrite (has_name_not_named _ _ Hother).
Qed.

Lemma next_blueprint_first (blueprint_name : pystr) (before after : list pyval)
    (found : pyval) :
  Forall (not_named blueprint_name) before → named blueprint_name found →
  next_blueprint blueprint_name (before ++ found :: after) = Ok (Some found).
Proof.
  intros Hbefore Hfound.
  induction Hbefore as [|blueprint before Hother _ IH]; cbn [app next_blueprint].
  - by rewrite (has_name_named _ _ Hfound).
  - by rewrite (has_name_not_named _ _ Hother).
Qed.

(** X14.  The blueprint cell creates or updates, never both.  When no
    listed blueprint carries [blueprint_name], the cell calls
    [create_blueprint] with the name, the type, the stage and the schema
    written by [json.dumps], and nothing else that writes; when one does,
    it calls [update_blueprint] with the ARN of the first listed blueprint
    of that name, the stage and the schema, and [create_blueprint] is not
    called.  In both cases [blueprint_arn] is what the answer of that call
    holds in ["blueprint"]["blueprintArn"]. *)
Theorem blueprint_is_created_or_updated
    (list_blueprints create_blueprint update_blueprint :
       list (string * pyval) → pyresult pyval)
    (blueprint_name blueprint_type blueprint_stage : pystr) (schema : json)
    (list_blueprints_response : pyval) (blueprints : list pyval) :
  list_blueprints [("blueprintStageFilter", VStr (lit "ALL"))]
  = Ok list_blueprints_response →
  subscript list_blueprints_response "blueprints" = Ok (VList blueprints) →
  (Forall (not_named blueprint_name) blueprints →
     let kwargs := [ ("blueprintName", VStr blueprint_name);
                     ("type", VStr blueprint_type);
                     ("blueprintStage", VStr blueprint_stage);
                     ("schema", VStr (json_dumps schema)) ] in
     blueprint_writes
       (blueprint_cell list_blueprints create_blueprint update_blueprint
          blueprint_name blueprint_type blueprint_stage schema).1
     = [CreateBlueprint kwargs]
     ∧ (blueprint_cell list_blueprints create_blueprint update_blueprint
          blueprint_name blueprint_type blueprint_stage schema).2
       = (do response <- create_blueprint kwargs;
          do blueprint <- subscript response "blueprint";
          subscript blueprint "blueprintArn"))
  ∧ (∀ before found after arn,
       blueprints = before ++ found :: after →
       Forall (not_named blueprint_name) before →
       named blueprint_name found →
       subscript found "blueprintArn" = Ok arn →
       let kwargs := [ ("blueprintArn", arn);
                       ("blueprintStage", VStr blueprint_stage);
                       ("schema", VStr (json_dumps schema)) ] in
       blueprint_writes
         (blueprint_cell list_blueprints create_blueprint update_blueprint
            blueprint_name blueprint_type blueprint_stage schema).1
       = [UpdateBlueprint kwargs]
       ∧ (blueprint_cell list_blueprints create_blueprint update_blueprint
            blueprint_name blueprint_type blueprint_stage schema).2
         = (do response <- update_blueprint kwargs;
            do blueprint <- subscript response "blueprint";
            subscript blueprint "blueprintArn")).
Proof.
  intros Hlist Hblueprints. split.
  - intros Hnone kwargs. unfold blueprint_cell, find_blueprint.
    rewrite Hlist. cbn [bind]. rewrite Hblueprints. cbn [bind iterate].
    rewrite (next_blueprint_none _ _ Hnone). unfold create_branch. fold kwargs.
    destruct (create_blueprint kwargs) as [response|e]; split; reflexivity.
  - intros before found after arn -> Hbefore Hfound Harn kwargs.
    unfold blueprint_cell, find_blueprint.
    rewrite Hlist. cbn [bind]. rewrite Hblueprints. cbn [bind iterate].
    rewrite (next_blueprint_first _ _ _ _ Hbefore Hfound).
    rewrite (named_truthy _ _ Hfound). unfold update_branch. rewrite Harn. fold kwargs.
    destruct (update_blueprint kwargs) as [response|e]; split; reflexivity.
Qed.

(** With the two recorded blueprints the second is updated; with an empty
    list a blueprint is created. *)
Lemma blueprint_is_created_or_updated_witness :
  (blueprint_cell (recorded_list_blueprints recorded_blueprints) recorded_create_blueprint
     recorded_update_blueprint (lit "test-brand-new-blueprint") (lit "DOCUMENT") (lit "LIVE")
     (blueprint_schema (lit "blueprint-description"))).2
  = Ok (VStr (lit "arn:aws:bedrock:us-west-2:123456789012:blueprint/b1"))
  ∧ (blueprint_cell (recorded_list_blueprints []) recorded_create_blueprint
       recorded_update_blueprint (lit "test-brand-new-blueprint") (lit "DOCUMENT") (lit "LIVE")
       (blueprint_schema (lit "blueprint-description"))).2
    = Ok (VStr (lit "arn:aws:bedrock:us-west-2:123456789012:blueprint/b2")).
Proof.
  split.
  - destruct (blueprint_is_created_or_updated
                (recorded_list_blueprints recorded_blueprints) recorded_create_blueprint
                recorded_update_blueprint (lit "test-brand-new-blueprint") (lit "DOCUMENT")
                (lit "LIVE") (blueprint_schema (lit "blueprint-description"))
                (VDict [ ("blueprints", VList recorded_blueprints) ]) recorded_blueprints
                eq_refl eq_refl) as [_ Hupdate].
    assert (not_named (lit "test-brand-new-blueprint")
              (VDict [ ("blueprintArn",
                        VStr (lit "arn:aws:bedrock:us-west-2:123456789012:blueprint/b0"));
                       ("blueprintName", VStr (lit "invoices")) ])) as Hother.
    { split; [by eexists|]. unfold named. vm_compute. discriminate. }
    assert (named (lit "test-brand-new-blueprint")
              (VDict [ ("blueprintArn",
                        VStr (lit "arn:aws:bedrock:us-west-2:123456789012:blueprint/b1"));
                       ("blueprintName", VStr (lit "test-brand-new-blueprint")) ])) as Hfound.
    { unfold named. vm_compute. reflexivity. }
    destruct (Hupdate
                [ VDict [ ("blueprintArn",
                           VStr (lit "arn:aws:bedrock:us-west-2:123456789012:blueprint/b0"));
                          ("blueprintName", VStr (lit "invoices")) ] ]
                (VDict [ ("blueprintArn",
                          VStr (lit "arn:aws:bedrock:us-west-2:123456789012:blueprint/b1"));
                         ("blueprintName", VStr (lit "test-brand-new-blueprint")) ])
                [] (VStr (lit "arn:aws:bedrock:us-west-2:123456789012:blueprint/b1"))
                eq_refl (Forall_cons_2 _ _ _ Hother (Forall_nil_2 _)) Hfound eq_refl)
      as [_ Hvalue].
    rewrite Hvalue. vm_compute. reflexivity.
  - destruct (blueprint_is_created_or_updated
                (recorded_list_blueprints []) recorded_create_blueprint
                recorded_update_blueprint (lit "test-brand-new-blueprint") (lit "DOCUMENT")
                (lit "LIVE") (blueprint_schema (lit "blueprint-description"))
                (VDict [ ("blueprints", VList []) ]) [] eq_refl eq_refl) as [Hcreate _].
    destruct (Hcreate (Forall_nil_2 _)) as [_ Hvalue].
    rewrite Hvalue. vm_compute. reflexivity.
Defined.

(** ** The outputs of the job (notebook 03) *)

Lemma object_reads_app (actions actions' : list bda_action) :
  object_reads (actions ++ actions') = object_reads actions ++ object_reads actions'.
Proof. unfold object_reads. apply omap_app. Qed.

(** X15.  The second object the notebook reads is the one the job
    metadata names.  When the metadata location is [s3://b/k] and the
    object there is JSON whose first output has a first segment with the
    ["custom_output_path"] [s3://b'/k'], the two cells ask S3 for [(b, k)]
    and then for [(b', k')], for nothing else, and the value printed at the
    end is the ["inference_result"] of the JSON read from [(b', k')];
    further outputs and segments of the metadata are not looked at. *)
Theorem custom_outputs_follow_job_metadata
    (json_loads : pystr → pyresult json) (container_repr : json → pystr)
    (get_object : pystr → pystr → pyresult (list byte))
    (metadata_bucket metadata_key bucket key : pystr)
    (members output segment : list (pystr * json)) (outputs segments : list json) :
  contains metadata_bucket slash = false →
  (do data <- get_object metadata_bucket metadata_key;
   do text <- utf8_decode data;
   json_loads text) = Ok (JObj members) →
  lookup_member (lit "output_metadata") members = Some (JArr (JObj output :: outputs)) →
  lookup_member (lit "segment_metadata") output = Some (JArr (JObj segment :: segments)) →
  lookup_member (lit "custom_output_path") segment = Some (JStr (s3_uri bucket key)) →
  contains bucket slash = false →
  object_reads
    (check_outputs json_loads container_repr get_object
       (s3_uri metadata_bucket metadata_key)).1
  = [ (metadata_bucket, metadata_key); (bucket, key) ]
  ∧ (check_outputs json_loads container_repr get_object
       (s3_uri metadata_bucket metadata_key)).2
    = (do data <- get_object bucket key;
       do text <- utf8_decode data;
       do custom_outputs <- json_loads text;
       json_subscript custom_outputs (lit "inference_result")).
Proof.
  intros Hmeta_bucket Hmetadata Houtputs Hsegments Hpath Hbucket.
  unfold check_outputs, job_metadata_cell, get_json.
  rewrite (get_object_args_s3_uri _ _ Hmeta_bucket), Hmetadata.
  unfold custom_output_path. cbn [json_subscript bind].
  rewrite Houtputs. cbn [bind json_first getitem lookup list_lookup json_subscript].
  rewrite Hsegments. cbn [bind json_first getitem lookup list_lookup json_subscript].
  rewrite Hpath.
  unfold custom_outputs_cell. cbn [str_receiver]. unfold get_json.
  rewrite (get_object_args_s3_uri _ _ Hbucket).
  destruct (do data <- get_object bucket key;
            do text <- utf8_decode data;
            json_loads text) as [custom_outputs|e] eqn:Hread.
  - assert ((do data <- get_object bucket key;
             do text <- utf8_decode data;
             do custom_outputs <- json_loads text;
             json_subscript custom_outputs (lit "inference_result"))
            = json_subscript custom_outputs (lit "inference_result")) as ->.
    { destruct (get_object bucket key) as [data|]; [|done]. cbn [bind] in *.
      destruct (utf8_decode data) as [text|]; [|done]. cbn [bind] in *.
      by rewrite Hread. }
    destruct (json_subscript custom_outputs (lit "inference_result")) as [result|e];
      cbn [fst snd]; rewrite !object_reads_app; split; reflexivity.
  - assert ((do data <- get_object bucket key;
             do text <- utf8_decode data;
             do custom_outputs <- json_loads text;
             json_subscript custom_outputs (lit "inference_result"))
            = Raise e) as ->.
    { destruct (get_object bucket key) as [data|]; [|done]. cbn [bind] in *.
      destruct (utf8_decode data) as [text|]; [|done]. cbn [bind] in *.
      by rewrite Hread. }
    cbn [fst snd]. rewrite !object_reads_app. split; reflexivity.
Qed.

(** The recorded job: the metadata name the custom output, whose inference
    result is the title of the paper. *)
Lemma custom_outputs_follow_job_metadata_witness :
  object_reads
    (check_outputs recorded_outputs_json_loads no_repr recorded_get_object
       (lit "s3://workshop/bda-outputs/j1/job_metadata.json")).1
  = [ (lit "workshop", lit "bda-outputs/j1/job_metadata.json");
      (lit "workshop", lit "bda-outputs/j1/0/custom_output/0/result.json") ]
  ∧ (check_outputs recorded_outputs_json_loads no_repr recorded_get_object
       (lit "s3://workshop/bda-outputs/j1/job_metadata.json")).2
    = Ok (JObj [ (lit "title", JStr (lit "Mistral 7B")) ]).
Proof.
  destruct (custom_outputs_follow_job_metadata recorded_outputs_json_loads no_repr
              recorded_get_object
              (lit "workshop") (lit "bda-outputs/j1/job_metadata.json")
              (lit "workshop") (lit "bda-outputs/j1/0/custom_output/0/result.json")
              [ (lit "job_id", JStr (lit "j1"));
                (lit "output_metadata",
                 JArr [ JObj [ (lit "asset_id", JInt 0);
                               (lit "segment_metadata",
                                JArr [ JObj [ (lit "custom_output_status", JStr (lit "MATCH"));
                                              (lit "custom_output_path",
                                               JStr (lit "s3://workshop/bda-outputs/j1/0/custom_output/0/result.json")) ] ]) ] ]) ]
              [ (lit "asset_id", JInt 0);
                (lit "segment_metadata",
                 JArr [ JObj [ (lit "custom_output_status", JStr (lit "MATCH"));
                               (lit "custom_output_path",
                                JStr (lit "s3://workshop/bda-outputs/j1/0/custom_output/0/result.json")) ] ]) ]
              [ (lit "custom_output_status", JStr (lit "MATCH"));
                (lit "custom_output_path",
                 JStr (lit "s3://workshop/bda-outputs/j1/0/custom_output/0/result.json")) ]
              [] [])
    as [Hreads Hvalue]; try (vm_compute; reflexivity).
  split.
  - exact Hreads.
  - etransitivity; [exact Hvalue|]. vm_compute. reflexivity.
Defined.

(** ** The invocation cell once the profile ARN has a name (notebook 03) *)

(** X16.  What the invocation cell does once [default_profile_arn] is
    bound, which no cell of the notebook does: the job is started on
    [s3://bucket/key] with the outputs under [s3://bucket/bda-outputs], the
    blueprint ARN and, as profile, the value of [default_profile_arn]; the
    tuple the cell binds to [dataAutomationProfileArn] is not passed.  The
    cell then binds [invocationArn] and prints it. *)
Theorem invocation_cell_with_profile_arn
    (str_of : pyval → pystr)
    (invoke_data_automation_async : list (string * pyval) → pyresult pyval)
    (globals : gmap string pyval)
    (region account bucket key arn : pystr) (client blueprint_arn profile response : pyval) :
  globals !! "REGION_ID" = Some (VStr region) →
  globals !! "ACCOUNT_ID" = Some (VStr account) →
  globals !! "bda_runtime_client" = Some client →
  globals !! "s3_bucket" = Some (VStr bucket) →
  globals !! "s3_file_key" = Some (VStr key) →
  globals !! "blueprint_arn" = Some blueprint_arn →
  globals !! "default_profile_arn" = Some profile →
  invoke_data_automation_async
    [ ("inputConfiguration", VDict [("s3Uri", VStr (s3_uri bucket key))]);
      ("outputConfiguration",
       VDict [("s3Uri", VStr (lit "s3://" ++ bucket ++ lit "/bda-outputs"))]);
      ("blueprints", VList [VDict [("blueprintArn", blueprint_arn)]]);
      ("dataAutomationProfileArn", profile) ]
  = Ok response →
  subscript response "invocationArn" = Ok (VStr arn) →
  invocation_cell str_of invoke_data_automation_async globals
  = (<["invocationArn" := VStr arn]>
       (<["response" := response]>
          (<["dataAutomationProfileArn" := VTuple [VStr (profile_arn region account)]]>
             globals)),
     [lit "Invoked data automation job with invocation arn " ++ arn ++ newline],
     Ok ()).
Proof.
  intros Hregion Haccount Hclient Hbucket Hkey Hblueprint Hprofile Hservice Harn.
  unfold invocation_cell, assign_profile_arn, call_arguments.
  rewrite (load_bound _ _ _ Hregion), (load_bound _ _ _ Haccount). cbn [bind format].
  unfold load. rewrite !lookup_insert_ne by done.
  rewrite Hclient, Hbucket, Hkey, Hblueprint, Hprofile. cbn [bind format].
  rewrite Hservice, Harn. reflexivity.
Qed.

Lemma invocation_cell_with_profile_arn_witness :
  (invocation_cell no_str recorded_data_automation repaired_globals).2 = Ok ()
  ∧ (invocation_cell no_str recorded_data_automation repaired_globals).1.2
    = [ lit "Invoked data automation job with invocation arn arn:aws:bedrock:us-west-2:123456789012:job/j1"
        ++ newline ].
Proof.
  rewrite (invocation_cell_with_profile_arn no_str recorded_data_automation repaired_globals
             (lit "us-west-2") (lit "123456789012")
             (lit "information-extraction-workshop-123456789012") (lit "2302.13971v1.pdf")
             (lit "arn:aws:bedrock:us-west-2:123456789012:job/j1")
             (VObject "client")
             (VStr (lit "arn:aws:bedrock:us-west-2:123456789012:blueprint/b1"))
             (VStr (lit "arn:aws:bedrock:us-west-2:123456789012:data-automation-profile/us.data-automation-v1"))
             (VDict [ ("invocationArn",
                       VStr (lit "arn:aws:bedrock:us-west-2:123456789012:job/j1")) ])).
  all: try (vm_compute; reflexivity).
  cbn [fst snd]. split; [reflexivity|]. vm_compute. reflexivity.
Defined.

(** X17.  While [default_profile_arn] is unbound, as the notebook leaves
    it, the invocation cell fails in every state of the kernel in which
    [bda_runtime_client] is the client the notebook creates and the other
    names the cell reads before are bound, whatever the account, the region,
    the bucket and the service are: it ends with the [NameError] of
    [default_profile_arn], prints nothing, binds nothing but the tuple of
    [dataAutomationProfileArn], and the service has no part in the outcome,
    since it is not called. *)
Theorem invocation_cell_fails_without_profile_arn
    (str_of : pyval → pystr)
    (invoke_data_automation_async other_service : list (string * pyval) → pyresult pyval)
    (globals : gmap string pyval)
    (region account bucket key blueprint_arn : pyval) :
  globals !! "REGION_ID" = Some region →
  globals !! "ACCOUNT_ID" = Some account →
  globals !! "bda_runtime_client" = Some (VObject "client") →
  globals !! "s3_bucket" = Some bucket →
  globals !! "s3_file_key" = Some key →
  globals !! "blueprint_arn" = Some blueprint_arn →
  globals !! "default_profile_arn" = None →
  invocation_cell str_of invoke_data_automation_async globals
  = (<["dataAutomationProfileArn" :=
         VTuple [VStr (profile_arn (format str_of region) (format str_of account))]]> globals,
     [], Raise (NameError "default_profile_arn"))
  ∧ invocation_cell str_of other_service globals
    = invocation_cell str_of invoke_data_automation_async globals.
Proof.
  intros Hregion Haccount Hclient Hbucket Hkey Hblueprint Hprofile.
  assert (∀ service,
            invocation_cell str_of service globals
            = (<["dataAutomationProfileArn" :=
                   VTuple [VStr (profile_arn (format str_of region) (format str_of account))]]>
                 globals,
               [], Raise (NameError "default_profile_arn"))) as Hcell.
  { intros service. unfold invocation_cell, assign_profile_arn, call_arguments.
    rewrite (load_bound _ _ _ Hregion), (load_bound _ _ _ Haccount). cbn [bind].
    unfold load. rewrite !lookup_insert_ne by done.
    rewrite Hclient, Hbucket, Hkey, Hblueprint, Hprofile. reflexivity. }
  split; [apply Hcell|]. by rewrite !Hcell.
Qed.

(** The recorded globals are such a state. *)
Lemma invocation_cell_fails_without_profile_arn_witness :
  (invocation_cell no_str recorded_data_automation recorded_globals).2
  = Raise (NameError "default_profile_arn")
  ∧ invocation_cell no_str (fun _ => Raise TypeError) recorded_globals
    = invocation_cell no_str recorded_data_automation recorded_globals.
Proof.
  destruct (invocation_cell_fails_without_profile_arn no_str recorded_data_automation
              (fun _ => Raise TypeError) recorded_globals
              (VStr (lit "us-west-2")) (VStr (lit "123456789012"))
              (VStr (lit "information-extraction-workshop-123456789012"))
              (VStr (lit "2302.13971v1.pdf"))
              (VStr (lit "arn:aws:bedrock:us-west-2:123456789012:blueprint/b1")))
    as [Hcell Hsame]; try (vm_compute; reflexivity).
  split; [by rewrite Hcell|exact Hsame].
Defined.

(** ** The variable [output] after the invocation cell *)

(** The handler does not touch the binding the [try] block left. *)
Lemma invoke_cell_binding
    (json_loads : pystr → pyresult json)
    (invoke_model_with_response_stream : request → pyresult response)
    (container_repr : json → pystr)
    (nb : notebook) (req : request) (w : world) :
  (invoke_cell json_loads invoke_model_with_response_stream container_repr nb req w).1.1
  = (try_block json_loads invoke_model_with_response_stream container_repr nb req w).1.1.
Proof.
  unfold invoke_cell.
  destruct (try_block json_loads invoke_model_with_response_stream container_repr nb req w)
    as [[output w'] [[]|e]]; [done|].
  by destruct (except_clause nb e w') as [w'' d].
Qed.

(** X18.  The invocation cell of the three notebooks leaves [output] bound
    exactly when the service answered the call: whatever the stream then
    does, [output] is bound; when the call itself raises, [output] is not
    assigned.  So after a refusal, which the cell handles by printing the
    hint, the cell ends normally and [output] is still unbound. *)
Theorem output_bound_iff_service_answers
    (json_loads : pystr → pyresult json)
    (invoke_model_with_response_stream : request → pyresult response)
    (container_repr : json → pystr)
    (nb : notebook) (req : request) (w : world) :
  let cell :=
    invoke_cell json_loads invoke_model_with_response_stream container_repr nb req w in
  (is_Some cell.1.1 ↔ ∃ response, invoke_model_with_response_stream req = Ok response)
  ∧ (∀ message,
       invoke_model_with_response_stream req = Raise (ClientError access_denied message) →
       cell.1.1 = None ∧ cell.2 = Ok ()
       ∧ stdout (trace cell.1.2) = stdout (trace w) ++ hint nb message ++ newline).
Proof.
  intros cell. subst cell. split.
  - rewrite invoke_cell_binding. unfold try_block.
    destruct (invoke_model_with_response_stream req) as [response|e].
    + split; [by eexists|]. intros _.
      destruct nb, (response_body response) as [stream|]; cbn [fst snd].
      * by destruct (for_events_00 json_loads container_repr stream _) as [w' r].
      * done.
      * by destruct (for_events json_loads stream [] _) as [[output w'] [[]|e]].
      * done.
      * by destruct (for_events json_loads stream [] _) as [[output w'] [[]|e]].
      * done.
    + cbn [fst snd]. split; [by intros [? ?]|by intros [? ?]].
  - intros message Hservice. unfold invoke_cell, try_block. rewrite Hservice.
    rewrite except_clause_access_denied. cbn [fst snd outcome].
    split; [done|]. split; [done|].
    by rewrite stdout_print, stdout_log_invoke.
Qed.

Lemma output_bound_iff_service_answers_witness :
  (invoke_cell recorded_json_loads denying_service no_repr Notebook02 recorded_request
     empty_world).1.1 = None
  ∧ (invoke_cell recorded_json_loads denying_service no_repr Notebook02 recorded_request
       empty_world).2 = Ok ().
Proof.
  destruct (output_bound_iff_service_answers recorded_json_loads denying_service no_repr
              Notebook02 recorded_request empty_world) as [_ Hdenied].
  destruct (Hdenied (lit "You don't have access to the model.") eq_refl)
    as (Hunbound & Hok & _).
  split; [exact Hunbound|exact Hok].
Defined.
